(** * panthor-update-notification: the version-check-and-notify cycle

    A shallow embedding of [main.go].  The program talks to three outside
    parties (the changelog API, the file system holding [version.yml], and the
    webhook endpoints) and may end the process through [log.Fatalln].  It is
    embedded in a small monad [M] that threads the file system, asks an
    environment [Env] for the answer to every outside call, records every call
    with its answer in a trace, and distinguishes a computation that returns
    from one that exits the process. *)

From Stdlib Require Import ZArith String Ascii List Lia.
From stdpp Require Import base option list strings pretty gmap.

Open Scope string_scope.
Open Scope list_scope.
Open Scope Z_scope.

(** ** Data model (the struct declarations of [main.go]) *)

(** A Go [error] is represented by the text of its message. *)
Definition error : Type := string.

Module Config.
Record t : Type := mk {
  App_Interval : string;
  App_LoadOnStartup : bool;
  Notification_Webhooks : list string
}.
End Config.

Module Version.
Record t : Type := mk { Version : string }.
End Version.

Module Changelog.
Record t : Type := mk {
  ID : Z;
  Version : string;
  ChangeMission : list string;
  ChangeMap : list string;
  ChangeMod : list string;
  Note : string;
  Active : Z;
  Size : string;
  ReallifeRpg : Z;
  ReleaseAt : string;
  CreatedAt : string;
  UpdatedAt : string
}.
End Changelog.

Module ChangelogResponse.
Record t : Type := mk {
  Data : list Changelog.t;
  RequestedAt : Z
}.
End ChangelogResponse.

(** ** The outside world *)

(** Answer to [http.Get]: a transport error, or a response with its status
    code and what [json.NewDecoder(resp.Body).Decode] makes of its body. *)
Inductive GetReply : Type :=
| GetErr (err : error)
| GetResp (StatusCode : Z) (decoded : error + ChangelogResponse.t).

(** Answer to [http.Post]: a transport error or a response status code. *)
Inductive PostReply : Type :=
| PostErr (err : error)
| PostResp (StatusCode : Z).

(** Answer to [os.WriteFile], which opens with O_CREATE and O_TRUNC and then
    writes.  [WriteErr err None]: the open failed and the file is untouched.
    [WriteErr err (Some k)]: the file was truncated and only the first [k]
    bytes of the data reached it. *)
Inductive WriteReply : Type :=
| WriteOk
| WriteErr (err : error) (written : option nat).

Record Env : Type := mkEnv {
  config_yml : error + Config.t;     (* what LoadConfig("config.yml") yields *)
  get_reply : nat -> GetReply;       (* answer to the n-th GET *)
  write_reply : nat -> WriteReply;   (* answer to the n-th WriteFile *)
  post_reply : nat -> PostReply      (* answer to the n-th POST *)
}.

Record World : Type := mkWorld {
  fs : gmap string string;           (* file name -> contents *)
  n_get : nat;
  n_write : nat;
  n_post : nat
}.

(** Every outside call, with the answer it received.  A [LogPrintln] carries
    the line that the [log] package prints, without its date and time prefix
    and without the final newline. *)
Inductive Event : Type :=
| HttpGet (url : string) (reply : GetReply)
| HttpPost (url contentType body : string) (reply : PostReply)
| OsStat (name : string) (found : bool)
| OsReadFile (name : string) (contents : option string)
| OsWriteFile (name data : string) (perm : Z) (reply : WriteReply)
| LogPrintln (line : string)
| OsExit (code : Z).

(** ** The monad *)

Inductive Res (A : Type) : Type :=
| Done (a : A)
| Exited (code : Z).
Arguments Done {A} a.
Arguments Exited {A} code.

Definition M (A : Type) : Type := Env -> World -> list Event * World * Res A.

Definition ret {A} (a : A) : M A := fun _ w => ([], w, Done a).

Definition bind {A B} (m : M A) (f : A -> M B) : M B :=
  fun env w =>
    match m env w with
    | (t1, w1, Exited code) => (t1, w1, Exited code)
    | (t1, w1, Done a) =>
        match f a env w1 with
        | (t2, w2, r) => (t1 ++ t2, w2, r)
        end
    end.

#[global] Instance M_ret : MRet M := @ret.
#[global] Instance M_bind : MBind M := fun A B f m => bind m f.

Definition trace_of {A} (out : list Event * World * Res A) : list Event := out.1.1.
Definition world_of {A} (out : list Event * World * Res A) : World := out.1.2.
Definition res_of {A} (out : list Event * World * Res A) : Res A := out.2.

(** ** Primitives: [net/http], [os], [log] *)

Definition StatusOK : Z := 200.

Definition http_Get (url : string) : M GetReply :=
  fun env w =>
    let r := get_reply env (n_get w) in
    ([HttpGet url r],
     mkWorld (fs w) (S (n_get w)) (n_write w) (n_post w),
     Done r).

Definition http_Post (url contentType body : string) : M PostReply :=
  fun env w =>
    let r := post_reply env (n_post w) in
    ([HttpPost url contentType body r],
     mkWorld (fs w) (n_get w) (n_write w) (S (n_post w)),
     Done r).

(** [os.Stat] followed by [!os.IsNotExist(err)]: the file is reported as
    existing exactly when the file system holds it. *)
Definition os_Stat (name : string) : M bool :=
  fun _ w =>
    let found := bool_decide (is_Some (fs w !! name)) in
    ([OsStat name found], w, Done found).

(** [os.ReadFile]: it fails when the file is missing, and only then. *)
Definition os_ReadFile (name : string) : M (error + string) :=
  fun _ w =>
    let c := fs w !! name in
    ([OsReadFile name c], w,
     Done match c with
          | Some data => inr data
          | None => inl ("open " +:+ name +:+ ": no such file or directory")
          end).

Definition fs_after_write (name data : string) (r : WriteReply)
    (files : gmap string string) : gmap string string :=
  match r with
  | WriteOk => <[name := data]> files
  | WriteErr _ None => files
  | WriteErr _ (Some k) => <[name := String.substring 0 k data]> files
  end.

Definition os_WriteFile (name data : string) (perm : Z) : M (option error) :=
  fun env w =>
    let r := write_reply env (n_write w) in
    ([OsWriteFile name data perm r],
     mkWorld (fs_after_write name data r (fs w)) (n_get w) (S (n_write w)) (n_post w),
     Done match r with
          | WriteOk => None
          | WriteErr err _ => Some err
          end).

Definition log_Println (line : string) : M unit :=
  fun _ w => ([LogPrintln line], w, Done tt).

(** [log.Fatalln] prints like [log.Println] and then calls [os.Exit(1)]; the
    statement that follows it in the source is never reached. *)
Definition log_Fatalln {A} (line : string) : M A :=
  fun _ w => ([LogPrintln line; OsExit 1], w, Exited 1).

(** ** [encoding/json]: marshalling a [map[string]interface{}]

    The dynamic values a [map[string]interface{}] can hold are cut down to the
    kinds that decide whether [json.Marshal] fails: it fails on a value of a
    channel, function or complex type, and on nothing else listed here. *)
Inductive GoValue : Type :=
| VNil
| VBool (b : bool)
| VInt (n : Z)
| VString (s : string)
| VUnsupported (typ : string).

Definition in_range (lo hi b : N) : bool := ((lo <=? b) && (b <=? hi))%N.

Definition hex_digit (n : N) : string :=
  String.substring (N.to_nat n) 1 "0123456789abcdef".

(** Width of the UTF-8 encoding at the head of [src], after
    [utf8.DecodeRuneInString]; [None] stands for [(RuneError, 1)]. *)
Definition utf8_width (src : list N) : option nat :=
  match src with
  | [] => None
  | b0 :: rest =>
      if in_range 0xC2 0xDF b0 then
        match rest with
        | b1 :: _ => if in_range 0x80 0xBF b1 then Some 2%nat else None
        | _ => None
        end
      else if in_range 0xE0 0xEF b0 then
        let lo := if (b0 =? 0xE0)%N then 0xA0%N else 0x80%N in
        let hi := if (b0 =? 0xED)%N then 0x9F%N else 0xBF%N in
        match rest with
        | b1 :: b2 :: _ =>
            if in_range lo hi b1 && in_range 0x80 0xBF b2 then Some 3%nat else None
        | _ => None
        end
      else if in_range 0xF0 0xF4 b0 then
        let lo := if (b0 =? 0xF0)%N then 0x90%N else 0x80%N in
        let hi := if (b0 =? 0xF4)%N then 0x8F%N else 0xBF%N in
        match rest with
        | b1 :: b2 :: b3 :: _ =>
            if in_range lo hi b1 && in_range 0x80 0xBF b2 && in_range 0x80 0xBF b3
            then Some 4%nat else None
        | _ => None
        end
      else None
  end.

Definition bytes_to_string (bs : list N) : string :=
  string_of_list_ascii (map ascii_of_N bs).

Definition string_to_bytes (s : string) : list N :=
  map N_of_ascii (list_ascii_of_string s).

(** One byte below [utf8.RuneSelf], as [appendString] writes it with
    [escapeHTML] set (the setting [json.Marshal] uses); the short forms of
    backspace and form feed are those of Go 1.22 and later. *)
Definition escape_ascii (b : N) : string :=
  if ((b =? 0x5C) || (b =? 0x22))%N then "\" +:+ bytes_to_string [b]
  else if (b =? 0x08)%N then "\b"
  else if (b =? 0x0C)%N then "\f"
  else if (b =? 0x0A)%N then "\n"
  else if (b =? 0x0D)%N then "\r"
  else if (b =? 0x09)%N then "\t"
  else if ((b <? 0x20) || (b =? 0x3C) || (b =? 0x3E) || (b =? 0x26))%N
  then "\u00" +:+ hex_digit (N.shiftr b 4) +:+ hex_digit (N.land b 0xF)
  else bytes_to_string [b].

(** The loop of [appendString]; [skip] counts the bytes of the current rune
    that were already dealt with. *)
Fixpoint appendString_from (skip : nat) (src : list N) : string :=
  match src with
  | [] => ""
  | b :: rest =>
      match skip with
      | S k => appendString_from k rest
      | O =>
          if (b <? 0x80)%N then escape_ascii b +:+ appendString_from 0 rest
          else
            match utf8_width src with
            | None => "\ufffd" +:+ appendString_from 0 rest
            | Some n =>
                match src with
                | 0xE2%N :: 0x80%N :: b2 :: _ =>
                    if in_range 0xA8 0xA9 b2
                    then "\u202" +:+ hex_digit (N.land b2 0xF)
                           +:+ appendString_from 2 rest
                    else bytes_to_string (take n src)
                           +:+ appendString_from (Nat.pred n) rest
                | _ => bytes_to_string (take n src)
                         +:+ appendString_from (Nat.pred n) rest
                end
            end
      end
  end.

Definition dquote : string := String "034"%char "".

Definition appendString (s : string) : string :=
  dquote +:+ appendString_from 0 (string_to_bytes s) +:+ dquote.

Definition encode_value (v : GoValue) : error + string :=
  match v with
  | VNil => inr "null"
  | VBool b => inr (if b then "true" else "false")
  | VInt n => inr (pretty n)
  | VString s => inr (appendString s)
  | VUnsupported typ => inl ("json: unsupported type: " +:+ typ)
  end.

(** Map keys are written in sorted order. *)
Fixpoint insert_by_key (kv : string * GoValue) (l : list (string * GoValue))
    : list (string * GoValue) :=
  match l with
  | [] => [kv]
  | kv' :: l' =>
      if String.leb kv.1 kv'.1 then kv :: l else kv' :: insert_by_key kv l'
  end.

Definition sort_by_key (l : list (string * GoValue)) : list (string * GoValue) :=
  foldr insert_by_key [] l.

Fixpoint encode_members (first : bool) (l : list (string * GoValue)) : error + string :=
  match l with
  | [] => inr ""
  | (k, v) :: l' =>
      match encode_value v with
      | inl err => inl err
      | inr ev =>
          match encode_members false l' with
          | inl err => inl err
          | inr tail =>
              inr ((if first then "" else ",") +:+ appendString k +:+ ":" +:+ ev +:+ tail)
          end
      end
  end.

(** A Go map literal is given as the list of its entries (its keys are
    distinct constants). *)
Definition json_Marshal (m : list (string * GoValue)) : error + string :=
  match encode_members true (sort_by_key m) with
  | inl err => inl err
  | inr members => inr ("{" +:+ members +:+ "}")
  end.

Definition strconv_FormatBool (b : bool) : string := if b then "true" else "false".

(** ** [gopkg.in/yaml.v3] on the [Version] struct

    The YAML library is not part of the repository.  The program uses two of
    its functions, at one type; they are taken as an interface.
    [yaml_Unmarshal data] is [yaml.Unmarshal(data, &version)] on a zero
    [Version]. *)
Class Yaml : Type := {
  yaml_Marshal : Version.t -> error + string;
  yaml_Unmarshal : string -> error + Version.t
}.

(** ** The program *)

Section Program.
Context {yaml : Yaml}.

(** [TriggerWebhook], main.go:142-154. *)
Definition TriggerWebhook (webhook requestBody : string) : M (option error) :=
  resp ← http_Post webhook "application/json" requestBody;
  match resp with
  | PostErr err => mret (Some ("error making POST request: " +:+ err))
  | PostResp StatusCode =>
      if bool_decide (StatusCode ≠ StatusOK)
      then mret (Some ("unexpected status code: " +:+ pretty StatusCode))
      else mret None
  end.

(** [LoadConfig], main.go:159-173.  Reading and parsing [config.yml] is left
    to the environment, which hands over the outcome. *)
Definition LoadConfig (filename : string) : M (error + Config.t) :=
  fun env w => ([], w, Done (config_yml env)).

(** [DoesFileExist], main.go:177-180. *)
Definition DoesFileExist (filename : string) : M bool := os_Stat filename.

(** [GetChangelogs], main.go:186-205. *)
Definition GetChangelogs : M (error + list Changelog.t) :=
  let url := "https://api.panthor.de/v1/changelog" in
  resp ← http_Get url;
  match resp with
  | GetErr err => mret (inl ("error making GET request: " +:+ err))
  | GetResp StatusCode decoded =>
      if bool_decide (StatusCode ≠ StatusOK)
      then mret (inl ("unexpected status code: " +:+ pretty StatusCode))
      else
        match decoded with
        | inl err => mret (inl ("error decoding response body: " +:+ err))
        | inr parsedResponse => mret (inr (ChangelogResponse.Data parsedResponse))
        end
  end.

(** [GetSavedVerison], main.go:209-223. *)
Definition GetSavedVerison : M (error + Version.t) :=
  r ← os_ReadFile "version.yml";
  match r with
  | inl err => mret (inl ("error reading the file: " +:+ err))
  | inr data =>
      match yaml_Unmarshal data with
      | inl err => mret (inl ("error parsing the YAML file: " +:+ err))
      | inr version => mret (inr version)
      end
  end.

(** [SaveVersion], main.go:235-246.  Permission 0644 is 420. *)
Definition SaveVersion (version : string) : M (option error) :=
  let data := Version.mk version in
  match yaml_Marshal data with
  | inl err => mret (Some ("error marshaling data to YAML: " +:+ err))
  | inr yamlData =>
      e ← os_WriteFile "version.yml" yamlData 420;
      match e with
      | Some err => mret (Some ("error writing to file: " +:+ err))
      | None => mret None
      end
  end.

(** The map literal of main.go:113-119. *)
Definition payload (changelog : Changelog.t) : list (string * GoValue) :=
  [ ("content",
     VString ("New version " +:+ Changelog.Version changelog +:+ " is available!"));
    ("version", VString (Changelog.Version changelog));
    ("size", VString (Changelog.Size changelog));
    ("hasModUpdate",
     VString (strconv_FormatBool
                (0 <? length (Changelog.ChangeMod changelog))%nat));
    ("releaseAt", VString (Changelog.ReleaseAt changelog)) ].

(** [for _, x := range l { body }]; a [continue] ends [body x]. *)
Fixpoint for_range {A} (l : list A) (body : A -> M unit) : M unit :=
  match l with
  | [] => mret tt
  | x :: l' => body x;; for_range l' body
  end.

(** The notification loop, main.go:112-130. *)
Definition notify (config : Config.t) (changelog : Changelog.t) : M unit :=
  for_range (Config.Notification_Webhooks config) (fun webhook =>
    match json_Marshal (payload changelog) with
    | inl err => log_Println ("Failed to marshal request body: " +:+ err)
    | inr requestBody =>
        e ← TriggerWebhook webhook requestBody;
        match e with
        | Some err => log_Println ("Failed to trigger webhook: " +:+ err)
        | None => mret tt
        end
    end).

(** The function handed to [c.AddFunc], main.go:79-131: one cycle. *)
Definition cycle (config : Config.t) : M unit :=
  r ← GetChangelogs;
  match r with
  | inl err => log_Fatalln ("Failed to get changelogs: " +:+ err)
  | inr changelogs =>
      match changelogs with
      | [] => log_Fatalln "no changelogs found"
      | changelog :: _ =>
          sv ← GetSavedVerison;
          match sv with
          | inl err => log_Fatalln ("Failed to get saved version: " +:+ err)
          | inr savedVersion =>
              if String.eqb (Changelog.Version changelog) (Version.Version savedVersion)
              then log_Println "Version is the same! No new version avaiable."
              else
                log_Println ("New version is " +:+ Changelog.Version changelog);;
                e ← SaveVersion (Changelog.Version changelog);
                match e with
                | Some err => log_Fatalln ("Failed to save version: " +:+ err)
                | None => notify config changelog
                end
          end
      end
  end.

(** The start-up block, main.go:57-76. *)
Definition startup (config : Config.t) : M unit :=
  seed ← (if Config.App_LoadOnStartup config then mret true
          else (found ← DoesFileExist "version.yml"; mret (negb found)));
  if seed : bool then
    r ← GetChangelogs;
    match r with
    | inl err => log_Fatalln ("Failed to get changelogs: " +:+ err)
    | inr changelogs =>
        match changelogs with
        | [] => log_Fatalln "no changelogs found"
        | changelog :: _ =>
            e ← SaveVersion (Changelog.Version changelog);
            match e with
            | Some err => log_Fatalln ("Failed to save version: " +:+ err)
            | None =>
                log_Println ("Version of the first item: "
                             +:+ Changelog.Version changelog)
            end
        end
    end
  else mret tt.

(** The scheduler started by [c.Start()]: it calls the job once per tick, one
    call after the other, for as long as the process lives.  [ticks] is the
    number of ticks observed. *)
Fixpoint cron_run (ticks : nat) (job : M unit) : M unit :=
  match ticks with
  | O => mret tt
  | S n => job;; cron_run n job
  end.

(** [main], main.go:50-138.  After [c.Start()] the main goroutine logs and
    blocks in [select {}]; a result [Done tt] after [ticks] ticks means that
    the process is still alive. *)
Definition main (ticks : nat) : M unit :=
  c ← LoadConfig "config.yml";
  match c with
  | inl err => log_Fatalln ("Failed to load config: " +:+ err)
  | inr config =>
      startup config;;
      log_Println "Panthor Update Notification started...";;
      cron_run ticks (cycle config)
  end.

End Program.

(** ** A reference YAML codec

    The one-key document [version: V] followed by a newline, which is what a
    YAML emitter writes for a version tag such as [2.0.5.2] that needs no
    quoting; an empty document leaves the struct at its zero value. *)
Definition flat_prefix : string := "version: ".

Definition flat_Unmarshal (data : string) : error + Version.t :=
  if String.eqb data "" then inr (Version.mk "")
  else
    let n := String.length data in
    if String.prefix flat_prefix data
       && String.eqb (String.substring (n - 1) 1 data) (String "010"%char "")
    then inr (Version.mk (String.substring 9 (n - 10) data))
    else inl "yaml: unmarshal errors".

Definition flatYaml : Yaml := {|
  yaml_Marshal v := inr (flat_prefix +:+ Version.Version v +:+ String "010"%char "");
  yaml_Unmarshal := flat_Unmarshal
|}.

(** ** Observations on a trace *)

(** The delivery attempts of a trace: endpoint, request body, answer. *)
Definition delivery_of (e : Event) : option (string * string * PostReply) :=
  match e with
  | HttpPost url _ body reply => Some (url, body, reply)
  | _ => None
  end.

Definition deliveries (t : list Event) : list (string * string * PostReply) :=
  omap delivery_of t.

(** The store mutations of a trace: file, data, answer. *)
Definition store_write_of (e : Event) : option (string * string * WriteReply) :=
  match e with
  | OsWriteFile name data _ reply => Some (name, data, reply)
  | _ => None
  end.

Definition store_writes (t : list Event) : list (string * string * WriteReply) :=
  omap store_write_of t.

(** The fetches of a trace. *)
Definition fetch_of (e : Event) : option GetReply :=
  match e with
  | HttpGet _ reply => Some reply
  | _ => None
  end.

Definition fetches (t : list Event) : list GetReply := omap fetch_of t.

(** A map entry whose value is a plain string. *)
Definition plain_string (kv : string * GoValue) : Prop := exists s, kv.2 = VString s.

(** The value a payload map holds under a key. *)
Definition field (key : string) (m : list (string * GoValue)) : option GoValue :=
  (list_to_map m : gmap string GoValue) !! key.

(** The YAML library gives back the version it wrote, at version [v]. *)
Definition yaml_roundtrip_at {yaml : Yaml} (v : string) : Prop :=
  forall data, yaml_Marshal (Version.mk v) = inr data ->
               yaml_Unmarshal data = inr (Version.mk v).

(** The world once one GET has been answered. *)
Definition after_get (w : World) : World :=
  mkWorld (fs w) (S (n_get w)) (n_write w) (n_post w).

(** The world once [k] POSTs have been answered. *)
Definition after_posts (k : nat) (w : World) : World :=
  mkWorld (fs w) (n_get w) (n_write w) (k + n_post w)%nat.

(** The world once a write of [data] to [version.yml] has succeeded. *)
Definition after_save (data : string) (w : World) : World :=
  mkWorld (<["version.yml" := data]> (fs w)) (n_get w) (S (n_write w)) (n_post w).

(** The attempts the notification loop is to make from world [w]: one per
    endpoint, in the order of the list, each with the same body. *)
Fixpoint attempts (env : Env) (from : nat) (body : string) (webhooks : list string)
    : list (string * string * PostReply) :=
  match webhooks with
  | [] => []
  | url :: rest => (url, body, post_reply env from) :: attempts env (S from) body rest
  end.

(** The first two events of a cycle that gets past the fetch. *)
Definition get_event (env : Env) (w : World) : Event :=
  HttpGet "https://api.panthor.de/v1/changelog" (get_reply env (n_get w)).

Definition read_event (w : World) : Event :=
  OsReadFile "version.yml" (fs w !! "version.yml").

(** ** Sample inputs *)

Definition sample_entry (version : string) (mods : list string) : Changelog.t :=
  Changelog.mk 1 version [] [] mods "" 1 "" 0 "2024-05-23 00:00:00" "" "".

Definition sample_feed (version : string) : GetReply :=
  GetResp 200
    (inr (ChangelogResponse.mk
            [sample_entry version []; sample_entry "2.0.5.0" []] 1716415200)).

Definition sample_config : Config.t := Config.mk "1 * * * *" false ["A"; "B"; "C"].

(** The API serves 2.0.5.2, the disk takes writes, endpoint B answers 500. *)
Definition env_B_down : Env :=
  mkEnv (inr sample_config) (fun _ => sample_feed "2.0.5.2") (fun _ => WriteOk)
        (fun n => if Nat.eqb n 1 then PostResp 500 else PostResp 200).

(** The API serves 2.0.5.2, [version.yml] cannot be opened for writing. *)
Definition env_read_only : Env :=
  mkEnv (inr sample_config) (fun _ => sample_feed "2.0.5.2")
        (fun _ => WriteErr "open version.yml: permission denied" None)
        (fun _ => PostResp 200).

(** The API cannot be reached. *)
Definition env_api_down : Env :=
  mkEnv (inr sample_config) (fun _ => GetErr "dial tcp: connection refused")
        (fun _ => WriteOk) (fun _ => PostResp 200).

(** The API answers with an empty list. *)
Definition env_api_empty : Env :=
  mkEnv (inr sample_config) (fun _ => GetResp 200 (inr (ChangelogResponse.mk [] 0)))
        (fun _ => WriteOk) (fun _ => PostResp 200).

Definition world_fresh : World := mkWorld ∅ 0 0 0.

Definition world_with (version : string) : World :=
  mkWorld {[ "version.yml" := flat_prefix +:+ version +:+ String "010"%char "" ]} 0 0 0.

(** The stored record is 2.0.5.1; the newest remote entry is 2.0.5.2. *)
Definition world_old : World := world_with "2.0.5.1".
Definition entry_new : Changelog.t := sample_entry "2.0.5.2" [].
Definition entries_rest : list Changelog.t := [sample_entry "2.0.5.0" []].
Definition record_new : string := flat_prefix +:+ "2.0.5.2" +:+ String "010"%char "".

(** The request body announcing [entry_new]. *)
Definition body_new : string :=
  match json_Marshal (payload entry_new) with
  | inr requestBody => requestBody
  | inl err => err
  end.

(** A JSON string literal without characters to escape. *)
Definition quoted (s : string) : string := dquote +:+ s +:+ dquote.

(** ** Three sentences of the specification, as they are written *)

(** Change detection, with no condition on the save. *)
Definition change_detection_as_stated : Prop :=
  forall (yaml : Yaml) config env w changelog rest savedVersion,
    res_of (GetChangelogs env w) = Done (inr (changelog :: rest)) ->
    res_of (GetSavedVerison env w) = Done (inr savedVersion) ->
    Changelog.Version changelog <> Version.Version savedVersion ->
    let out := cycle config env w in
    exists requestBody data,
      json_Marshal (payload changelog) = inr requestBody /\
      field "version" (payload changelog) = Some (VString (Changelog.Version changelog)) /\
      deliveries (trace_of out) =
        attempts env (n_post w) requestBody (Config.Notification_Webhooks config) /\
      yaml_Marshal (Version.mk (Changelog.Version changelog)) = inr data /\
      fs (world_of out) !! "version.yml" = Some data.

(** A fetch error, a load failure or a save failure in the cycle run from [w]. *)
Definition cycle_error {yaml : Yaml} (env : Env) (w : World) : Prop :=
  (exists err, res_of (GetChangelogs env w) = Done (inl err)) \/
  (exists changelog rest err,
     res_of (GetChangelogs env w) = Done (inr (changelog :: rest)) /\
     res_of (GetSavedVerison env w) = Done (inl err)) \/
  (exists changelog rest savedVersion err,
     res_of (GetChangelogs env w) = Done (inr (changelog :: rest)) /\
     res_of (GetSavedVerison env w) = Done (inr savedVersion) /\
     Changelog.Version changelog <> Version.Version savedVersion /\
     res_of (SaveVersion (Changelog.Version changelog) env w) = Done (Some err)).

(** Error survival: the cycle returns to the scheduler, and the next tick
    runs the next cycle (which makes its own fetch). *)
Definition errors_survived_as_stated : Prop :=
  forall (yaml : Yaml) config env w,
    cycle_error env w ->
    res_of (cycle config env w) = Done tt /\
    length (fetches (trace_of (cron_run 2 (cycle config) env w))) = 2%nat.

(** Seeding, with no condition on the save. *)
Definition seeding_as_stated : Prop :=
  forall (yaml : Yaml) config env w changelog rest,
    fs w !! "version.yml" = None ->
    res_of (GetChangelogs env w) = Done (inr (changelog :: rest)) ->
    let out := startup config env w in
    (exists data,
       yaml_Marshal (Version.mk (Changelog.Version changelog)) = inr data /\
       fs (world_of out) !! "version.yml" = Some data) /\
    deliveries (trace_of out) = [].

(** The stored record is already 2.0.5.2. *)
Definition world_current : World := world_with "2.0.5.2".

(** A working directory that also holds the configuration file. *)
Definition world_two_files : World :=
  mkWorld (<["config.yml" := "app: {}"]> (fs world_old)) 0 0 0.

(** The entry [entry_new] with other descriptive fields. *)
Definition entry_new_described : Changelog.t :=
  Changelog.mk 7 "2.0.5.2" ["mission"] ["map"] [] "note" 0 "" 1
               "2024-05-23 00:00:00" "2024-05-22" "2024-05-24".

(** ** The branches of a cycle

    Which way the cycle run from [w] goes, read off the answers it is going
    to receive. *)
Inductive CycleBranch {yaml : Yaml} (env : Env) (w : World) : Prop :=
| BranchFetchFailed err
    (Hget : res_of (GetChangelogs env w) = Done (inl err))
| BranchNoChangelogs
    (Hget : res_of (GetChangelogs env w) = Done (inr []))
| BranchLoadFailed changelog rest err
    (Hget : res_of (GetChangelogs env w) = Done (inr (changelog :: rest)))
    (Hload : res_of (GetSavedVerison env w) = Done (inl err))
| BranchUnchanged changelog rest savedVersion
    (Hget : res_of (GetChangelogs env w) = Done (inr (changelog :: rest)))
    (Hload : res_of (GetSavedVerison env w) = Done (inr savedVersion))
    (Hsame : Changelog.Version changelog = Version.Version savedVersion)
| BranchSaveFailed changelog rest savedVersion err
    (Hget : res_of (GetChangelogs env w) = Done (inr (changelog :: rest)))
    (Hload : res_of (GetSavedVerison env w) = Done (inr savedVersion))
    (Hdiff : Changelog.Version changelog <> Version.Version savedVersion)
    (Hsave : res_of (SaveVersion (Changelog.Version changelog) env w) = Done (Some err))
| BranchUpdated changelog rest savedVersion data
    (Hget : res_of (GetChangelogs env w) = Done (inr (changelog :: rest)))
    (Hload : res_of (GetSavedVerison env w) = Done (inr savedVersion))
    (Hdiff : Changelog.Version changelog <> Version.Version savedVersion)
    (Hm : yaml_Marshal (Version.mk (Changelog.Version changelog)) = inr data)
    (Hw : write_reply env (n_write w) = WriteOk).

(** The lines logged in a trace. *)
Definition log_line_of (e : Event) : option string :=
  match e with
  | LogPrintln line => Some line
  | _ => None
  end.

Definition log_lines (t : list Event) : list string := omap log_line_of t.

(** The process exits of a trace. *)
Definition exit_of (e : Event) : option Z :=
  match e with
  | OsExit code => Some code
  | _ => None
  end.

Definition exits (t : list Event) : list Z := omap exit_of t.

(** A delivery that [TriggerWebhook] reports as failed. *)
Definition delivery_failed (a : string * string * PostReply) : bool :=
  match a.2 with
  | PostErr _ => true
  | PostResp StatusCode => negb (StatusCode =? StatusOK)
  end.

(** The sample configuration with [load_on_startup] set. *)
Definition config_refresh : Config.t := Config.mk "1 * * * *" true ["A"; "B"; "C"].

(** As [env_B_down], with [load_on_startup] set in the configuration. *)
Definition env_refresh : Env :=
  mkEnv (inr config_refresh) (fun _ => sample_feed "2.0.5.2") (fun _ => WriteOk)
        (fun n => if Nat.eqb n 1 then PostResp 500 else PostResp 200).

(** ** Three ways a computation can behave *)

(** It leaves every file other than [version.yml] as it found it. *)
Definition keeps_other_files {A} (m : M A) : Prop :=
  forall env w name,
    name <> "version.yml" -> fs (world_of (m env w)) !! name = fs w !! name.

(** It attempts no delivery. *)
Definition never_delivers {A} (m : M A) : Prop :=
  forall env w, deliveries (trace_of (m env w)) = [].

(** It returns without an exit event, or it exits with status 1, the exit
    being its last event and a log line the one before. *)
Definition exits_tidily {A} (m : M A) : Prop :=
  forall env w,
    (exits (trace_of (m env w)) = [] /\ exists a, res_of (m env w) = Done a) \/
    (exists t line,
       trace_of (m env w) = t ++ [LogPrintln line; OsExit 1] /\
       exits t = [] /\
       res_of (m env w) = Exited 1).

(** The start-up block after its fetch, main.go:59-75. *)
Definition seed_with {yaml : Yaml} (r : error + list Changelog.t) : M unit :=
  match r with
  | inl err => log_Fatalln ("Failed to get changelogs: " +:+ err)
  | inr changelogs =>
      match changelogs with
      | [] => log_Fatalln "no changelogs found"
      | changelog :: _ =>
          e ← SaveVersion (Changelog.Version changelog);
          match e with
          | Some err => log_Fatalln ("Failed to save version: " +:+ err)
          | None =>
              log_Println ("Version of the first item: "
                           +:+ Changelog.Version changelog)
          end
      end
  end.

(** What the start-up block does before its fetch: with [load_on_startup]
    unset it asks whether [version.yml] exists, and is told that it does not. *)
Definition stat_prefix (config : Config.t) : list Event :=
  if Config.App_LoadOnStartup config then [] else [OsStat "version.yml" false].

(** From [w] on, every fetch yields a non-empty list whose first entry has
    version [v]. *)
Definition remote_stays_at (env : Env) (w : World) (v : string) : Prop :=
  forall k, (n_get w <= k)%nat ->
    exists changelog rest requested_at,
      get_reply env k
        = GetResp StatusOK (inr (ChangelogResponse.mk (changelog :: rest) requested_at)) /\
      Changelog.Version changelog = v.

Arguments json_Marshal : simpl never.
Arguments payload changelog : simpl never.

(** * Properties *)

Section Properties.
Context {yaml : Yaml}.

(** ** Running the monad *)

Lemma bind_done {A B} (m : M A) (f : A -> M B) env w t1 w1 a :
  m env w = (t1, w1, Done a) ->
  (m ≫= f) env w =
    (t1 ++ trace_of (f a env w1), world_of (f a env w1), res_of (f a env w1)).
Proof.
  intros Hm. unfold mbind, M_bind, bind. rewrite Hm.
  destruct (f a env w1) as [[t2 w2] r]. reflexivity.
Qed.

Lemma bind_exit {A B} (m : M A) (f : A -> M B) env w t1 w1 code :
  m env w = (t1, w1, Exited code) ->
  (m ≫= f) env w = (t1, w1, Exited code).
Proof. intros Hm. unfold mbind, M_bind, bind. rewrite Hm. reflexivity. Qed.

Lemma deliveries_app t1 t2 : deliveries (t1 ++ t2) = deliveries t1 ++ deliveries t2.
Proof. apply omap_app. Qed.

Lemma store_writes_app t1 t2 :
  store_writes (t1 ++ t2) = store_writes t1 ++ store_writes t2.
Proof. apply omap_app. Qed.

(** ** The library calls of the program, one by one *)

Lemma log_Println_run line env w :
  log_Println line env w = ([LogPrintln line], w, Done tt).
Proof. reflexivity. Qed.

Lemma GetChangelogs_run env w :
  GetChangelogs env w =
    ([HttpGet "https://api.panthor.de/v1/changelog" (get_reply env (n_get w))],
     after_get w, res_of (GetChangelogs env w)).
Proof.
  unfold GetChangelogs, mbind, M_bind, bind, http_Get, after_get, res_of.
  destruct (get_reply env (n_get w)) as [err | code [err | parsed]]; simpl;
    try case_bool_decide; reflexivity.
Qed.

Lemma GetChangelogs_returns env w : exists r, res_of (GetChangelogs env w) = Done r.
Proof.
  unfold GetChangelogs, mbind, M_bind, bind, http_Get, res_of.
  destruct (get_reply env (n_get w)) as [err | code [err | parsed]]; simpl;
    try case_bool_decide; eauto.
Qed.

Lemma GetSavedVerison_run env w :
  GetSavedVerison env w =
    ([OsReadFile "version.yml" (fs w !! "version.yml")], w,
     res_of (GetSavedVerison env w)).
Proof.
  unfold GetSavedVerison, mbind, M_bind, bind, os_ReadFile, res_of.
  destruct (fs w !! "version.yml") as [data |]; simpl; [| reflexivity].
  destruct (yaml_Unmarshal data); reflexivity.
Qed.

Lemma GetSavedVerison_returns env w :
  exists r, res_of (GetSavedVerison env w) = Done r.
Proof.
  unfold GetSavedVerison, mbind, M_bind, bind, os_ReadFile, res_of.
  destruct (fs w !! "version.yml") as [data |]; simpl; [| eauto].
  destruct (yaml_Unmarshal data); simpl; eauto.
Qed.

(** What [GetSavedVerison] returns is decided by the file system alone. *)
Lemma GetSavedVerison_fs env env' w w' :
  fs w = fs w' -> res_of (GetSavedVerison env w) = res_of (GetSavedVerison env' w').
Proof.
  intros Hfs.
  unfold GetSavedVerison, mbind, M_bind, bind, os_ReadFile, res_of.
  rewrite Hfs. destruct (fs w' !! "version.yml") as [data |]; simpl; [| reflexivity].
  destruct (yaml_Unmarshal data); reflexivity.
Qed.

Lemma GetSavedVerison_load env w data v :
  fs w !! "version.yml" = Some data ->
  yaml_Unmarshal data = inr v ->
  res_of (GetSavedVerison env w) = Done (inr v).
Proof.
  intros Hf Hu.
  unfold GetSavedVerison, mbind, M_bind, bind, os_ReadFile, res_of.
  rewrite Hf. simpl. rewrite Hu. reflexivity.
Qed.

Lemma SaveVersion_ok env w v data :
  yaml_Marshal (Version.mk v) = inr data ->
  write_reply env (n_write w) = WriteOk ->
  SaveVersion v env w =
    ([OsWriteFile "version.yml" data 420 WriteOk],
     mkWorld (<["version.yml" := data]> (fs w)) (n_get w) (S (n_write w)) (n_post w),
     Done None).
Proof.
  intros Hm Hw.
  unfold SaveVersion, mbind, M_bind, bind, os_WriteFile. rewrite Hm, Hw.
  reflexivity.
Qed.

(** A save that reports success wrote the marshalled record, whole. *)
Lemma SaveVersion_success env w v :
  res_of (SaveVersion v env w) = Done None ->
  exists data,
    yaml_Marshal (Version.mk v) = inr data /\
    write_reply env (n_write w) = WriteOk.
Proof.
  unfold SaveVersion, mbind, M_bind, bind, os_WriteFile, res_of.
  destruct (yaml_Marshal (Version.mk v)) as [err | data]; simpl; [discriminate |].
  destruct (write_reply env (n_write w)) as [| err k]; simpl; [eauto | discriminate].
Qed.


(** ** Marshalling the payload *)

Lemma insert_by_key_Forall (P : string * GoValue -> Prop) kv l :
  P kv -> Forall P l -> Forall P (insert_by_key kv l).
Proof.
  intros Hkv Hl. induction Hl as [| kv' l' Hkv' Hl' IH]; simpl.
  - constructor; [exact Hkv | constructor].
  - destruct (String.leb kv.1 kv'.1); repeat constructor; assumption.
Qed.

Lemma sort_by_key_Forall (P : string * GoValue -> Prop) l :
  Forall P l -> Forall P (sort_by_key l).
Proof.
  intros Hl. unfold sort_by_key. induction Hl as [| kv l' Hkv Hl' IH]; simpl.
  - constructor.
  - apply insert_by_key_Forall; assumption.
Qed.

Lemma encode_members_strings first l :
  Forall plain_string l -> exists members, encode_members first l = inr members.
Proof.
  intros Hl. revert first.
  induction Hl as [| [k v] l' [s Hs] Hl' IH]; intros first; simpl.
  - eauto.
  - simpl in Hs. subst v. simpl. destruct (IH false) as [tail ->]. eauto.
Qed.

(** [json.Marshal] succeeds on a map whose values are all strings. *)
Lemma json_Marshal_strings m :
  Forall plain_string m -> exists requestBody, json_Marshal m = inr requestBody.
Proof.
  intros Hm. unfold json_Marshal.
  destruct (encode_members_strings true (sort_by_key m)) as [members ->];
    [apply sort_by_key_Forall, Hm | eauto].
Qed.

Lemma payload_plain_strings changelog : Forall plain_string (payload changelog).
Proof. unfold payload. repeat constructor; eexists; reflexivity. Qed.

Lemma json_Marshal_payload changelog :
  exists requestBody, json_Marshal (payload changelog) = inr requestBody.
Proof. apply json_Marshal_strings, payload_plain_strings. Qed.

(** ** The notification loop *)

(** One turn of the loop: the POST, then at most a log line. *)
Lemma notify_turn webhook requestBody env w :
  exists logs,
    (TriggerWebhook webhook requestBody ≫= λ e : option error,
       match e with
       | Some err => log_Println ("Failed to trigger webhook: " +:+ err)
       | None => mret ()
       end) env w =
      (HttpPost webhook "application/json" requestBody (post_reply env (n_post w))
         :: logs,
       after_posts 1 w, Done tt) /\
    deliveries logs = [] /\ store_writes logs = [] /\ fetches logs = [].
Proof.
  unfold TriggerWebhook, mbind, M_bind, bind, http_Post, after_posts, log_Println.
  destruct (post_reply env (n_post w)) as [err | code]; simpl.
  - eexists; split; [reflexivity | repeat split].
  - case_bool_decide; simpl; eexists; (split; [reflexivity | repeat split]).
Qed.

Lemma notify_run config changelog requestBody env w :
  json_Marshal (payload changelog) = inr requestBody ->
  let webhooks := Config.Notification_Webhooks config in
  let out := notify config changelog env w in
  deliveries (trace_of out) = attempts env (n_post w) requestBody webhooks /\
  store_writes (trace_of out) = [] /\
  fetches (trace_of out) = [] /\
  world_of out = after_posts (length webhooks) w /\
  res_of out = Done tt.
Proof.
  intros Hbody webhooks out. subst out webhooks. unfold notify. rewrite Hbody.
  generalize (Config.Notification_Webhooks config). intros webhooks.
  revert w. induction webhooks as [| url rest IH]; intros w.
  - simpl. destruct w; repeat split; reflexivity.
  - simpl for_range.
    destruct (notify_turn url requestBody env w) as (logs & Hturn & Hd & Hw & Hf).
    rewrite (bind_done _ _ _ _ _ _ _ Hturn).
    destruct (IH (after_posts 1 w)) as (IHd & IHw & IHf & IHworld & IHres).
    unfold trace_of, world_of, res_of in *. simpl.
    change (HttpPost url "application/json" requestBody (post_reply env (n_post w))
              :: logs ++ ?t)
      with ([HttpPost url "application/json" requestBody (post_reply env (n_post w))]
              ++ logs ++ t).
    unfold fetches in *.
    rewrite !deliveries_app, !store_writes_app, !omap_app.
    rewrite Hd, Hw, Hf, IHd, IHw, IHf, IHworld, IHres.
    unfold after_posts; simpl.
    repeat split; try reflexivity. f_equal. lia.
Qed.

(** ** The branches of one cycle *)

Lemma cycle_fetch_failed config env w err :
  res_of (GetChangelogs env w) = Done (inl err) ->
  cycle config env w =
    ([get_event env w; LogPrintln ("Failed to get changelogs: " +:+ err); OsExit 1],
     after_get w, Exited 1).
Proof.
  intros Hget. pose proof (GetChangelogs_run env w) as Hrun. rewrite Hget in Hrun.
  unfold cycle. rewrite (bind_done _ _ _ _ _ _ _ Hrun). reflexivity.
Qed.

Lemma cycle_no_changelogs config env w :
  res_of (GetChangelogs env w) = Done (inr []) ->
  cycle config env w =
    ([get_event env w; LogPrintln "no changelogs found"; OsExit 1],
     after_get w, Exited 1).
Proof.
  intros Hget. pose proof (GetChangelogs_run env w) as Hrun. rewrite Hget in Hrun.
  unfold cycle. rewrite (bind_done _ _ _ _ _ _ _ Hrun). reflexivity.
Qed.

Lemma cycle_load_failed config env w changelog rest err :
  res_of (GetChangelogs env w) = Done (inr (changelog :: rest)) ->
  res_of (GetSavedVerison env w) = Done (inl err) ->
  cycle config env w =
    ([get_event env w; read_event w;
      LogPrintln ("Failed to get saved version: " +:+ err); OsExit 1],
     after_get w, Exited 1).
Proof.
  intros Hget Hload.
  pose proof (GetChangelogs_run env w) as Hrun. rewrite Hget in Hrun.
  pose proof (GetSavedVerison_run env (after_get w)) as Hrun'.
  rewrite <- (GetSavedVerison_fs env env w (after_get w) eq_refl), Hload in Hrun'.
  unfold cycle. rewrite (bind_done _ _ _ _ _ _ _ Hrun).
  rewrite (bind_done _ _ _ _ _ _ _ Hrun'). reflexivity.
Qed.

Lemma cycle_unchanged config env w changelog rest savedVersion :
  res_of (GetChangelogs env w) = Done (inr (changelog :: rest)) ->
  res_of (GetSavedVerison env w) = Done (inr savedVersion) ->
  Changelog.Version changelog = Version.Version savedVersion ->
  cycle config env w =
    ([get_event env w; read_event w;
      LogPrintln "Version is the same! No new version avaiable."],
     after_get w, Done tt).
Proof.
  intros Hget Hload Hsame.
  pose proof (GetChangelogs_run env w) as Hrun. rewrite Hget in Hrun.
  pose proof (GetSavedVerison_run env (after_get w)) as Hrun'.
  rewrite <- (GetSavedVerison_fs env env w (after_get w) eq_refl), Hload in Hrun'.
  unfold cycle. rewrite (bind_done _ _ _ _ _ _ _ Hrun).
  rewrite (bind_done _ _ _ _ _ _ _ Hrun').
  apply String.eqb_eq in Hsame. rewrite Hsame. reflexivity.
Qed.

(** The UPDATING branch up to the outcome of the save. *)
Lemma cycle_updating config env w changelog rest savedVersion :
  res_of (GetChangelogs env w) = Done (inr (changelog :: rest)) ->
  res_of (GetSavedVerison env w) = Done (inr savedVersion) ->
  Changelog.Version changelog <> Version.Version savedVersion ->
  cycle config env w =
    let k : M unit :=
      e ← SaveVersion (Changelog.Version changelog);
      match e with
      | Some err => log_Fatalln ("Failed to save version: " +:+ err)
      | None => notify config changelog
      end in
    ([get_event env w; read_event w;
      LogPrintln ("New version is " +:+ Changelog.Version changelog)]
       ++ trace_of (k env (after_get w)),
     world_of (k env (after_get w)), res_of (k env (after_get w))).
Proof.
  intros Hget Hload Hdiff.
  pose proof (GetChangelogs_run env w) as Hrun. rewrite Hget in Hrun.
  pose proof (GetSavedVerison_run env (after_get w)) as Hrun'.
  rewrite <- (GetSavedVerison_fs env env w (after_get w) eq_refl), Hload in Hrun'.
  unfold cycle. rewrite (bind_done _ _ _ _ _ _ _ Hrun).
  rewrite (bind_done _ _ _ _ _ _ _ Hrun').
  apply String.eqb_neq in Hdiff. rewrite Hdiff.
  rewrite (bind_done _ _ _ _ _ _ _ (log_Println_run _ env (after_get w))).
  cbv zeta. unfold trace_of, world_of, res_of. cbn [fst snd app]. reflexivity.
Qed.

Lemma cycle_save_failed config env w changelog rest savedVersion err :
  res_of (GetChangelogs env w) = Done (inr (changelog :: rest)) ->
  res_of (GetSavedVerison env w) = Done (inr savedVersion) ->
  Changelog.Version changelog <> Version.Version savedVersion ->
  res_of (SaveVersion (Changelog.Version changelog) env w) = Done (Some err) ->
  let save := SaveVersion (Changelog.Version changelog) env (after_get w) in
  cycle config env w =
    ([get_event env w; read_event w;
      LogPrintln ("New version is " +:+ Changelog.Version changelog)]
       ++ trace_of save
       ++ [LogPrintln ("Failed to save version: " +:+ err); OsExit 1],
     world_of save, Exited 1) /\
  deliveries (trace_of save) = [] /\
  (forall name data reply,
     (name, data, reply) ∈ store_writes (trace_of save) -> reply <> WriteOk).
Proof.
  intros Hget Hload Hdiff Hsave save.
  rewrite (cycle_updating _ _ _ _ _ _ Hget Hload Hdiff). subst save. simpl.
  revert Hsave.
  unfold SaveVersion, mbind, M_bind, bind, os_WriteFile, res_of, trace_of, world_of,
    log_Fatalln, after_get.
  destruct (yaml_Marshal (Version.mk (Changelog.Version changelog)))
    as [merr | data]; simpl.
  - intros [= <-]. split; [reflexivity |]. split; [reflexivity |].
    intros name d r Hin. inversion Hin.
  - destruct (write_reply env (n_write w)) as [| werr k] eqn:Hw; simpl;
      [discriminate |].
    intros [= <-]. split; [reflexivity |]. split; [reflexivity |].
    intros name d r Hin. apply list_elem_of_singleton in Hin.
    injection Hin as -> -> ->. discriminate.
Qed.

Lemma cycle_updated config env w changelog rest savedVersion data :
  res_of (GetChangelogs env w) = Done (inr (changelog :: rest)) ->
  res_of (GetSavedVerison env w) = Done (inr savedVersion) ->
  Changelog.Version changelog <> Version.Version savedVersion ->
  yaml_Marshal (Version.mk (Changelog.Version changelog)) = inr data ->
  write_reply env (n_write w) = WriteOk ->
  let w' := after_save data (after_get w) in
  cycle config env w =
    ([get_event env w; read_event w;
      LogPrintln ("New version is " +:+ Changelog.Version changelog);
      OsWriteFile "version.yml" data 420 WriteOk]
       ++ trace_of (notify config changelog env w'),
     world_of (notify config changelog env w'), Done tt).
Proof.
  intros Hget Hload Hdiff Hm Hw w'.
  rewrite (cycle_updating _ _ _ _ _ _ Hget Hload Hdiff). simpl.
  pose proof (SaveVersion_ok env (after_get w) _ _ Hm Hw) as Hsave.
  rewrite (bind_done _ _ _ _ _ _ _ Hsave).
  destruct (json_Marshal_payload changelog) as [body Hbody].
  destruct (notify_run config changelog body env w' Hbody) as (_ & _ & _ & _ & Hres).
  unfold trace_of, world_of, res_of in *. simpl.
  rewrite <- Hres. reflexivity.
Qed.

(** ** Change detection *)

Lemma field_version changelog :
  field "version" (payload changelog) = Some (VString (Changelog.Version changelog)).
Proof. reflexivity. Qed.

(** What a cycle of the UPDATING branch leaves behind once its save has
    succeeded: the attempts of the loop and the new record. *)
Lemma cycle_updated_outcome config env w changelog rest savedVersion data requestBody :
  res_of (GetChangelogs env w) = Done (inr (changelog :: rest)) ->
  res_of (GetSavedVerison env w) = Done (inr savedVersion) ->
  Changelog.Version changelog <> Version.Version savedVersion ->
  yaml_Marshal (Version.mk (Changelog.Version changelog)) = inr data ->
  write_reply env (n_write w) = WriteOk ->
  json_Marshal (payload changelog) = inr requestBody ->
  deliveries (trace_of (cycle config env w)) =
    attempts env (n_post w) requestBody (Config.Notification_Webhooks config) /\
  fs (world_of (cycle config env w)) !! "version.yml" = Some data.
Proof.
  intros Hget Hload Hdiff Hm Hw Hbody.
  rewrite (cycle_updated _ _ _ _ _ _ _ Hget Hload Hdiff Hm Hw).
  destruct (notify_run config changelog requestBody env
              (after_save data (after_get w)) Hbody)
    as (Hd & _ & _ & Hworld & _).
  unfold trace_of, world_of in *. cbn [fst snd]. split.
  - change (deliveries ([get_event env w; read_event w;
              LogPrintln ("New version is " +:+ Changelog.Version changelog);
              OsWriteFile "version.yml" data 420 WriteOk]
             ++ (notify config changelog env (after_save data (after_get w))).1.1)
            = attempts env (n_post w) requestBody (Config.Notification_Webhooks config)).
    rewrite deliveries_app, Hd. reflexivity.
  - rewrite Hworld. simpl. apply lookup_insert_eq.
Qed.

(** C1 (amended): in a cycle whose fetch yields a non-empty list with first
    version V2, whose load yields V1 different from V2, and whose save of V2
    succeeds, there is exactly one delivery attempt per configured endpoint,
    in order, each carrying the marshalled payload whose version field is
    V2, and the store holds the record of V2 afterwards, whatever the
    endpoints answer. *)
Theorem change_detection config env w changelog rest savedVersion data :
  res_of (GetChangelogs env w) = Done (inr (changelog :: rest)) ->
  res_of (GetSavedVerison env w) = Done (inr savedVersion) ->
  Changelog.Version changelog <> Version.Version savedVersion ->
  yaml_Marshal (Version.mk (Changelog.Version changelog)) = inr data ->
  write_reply env (n_write w) = WriteOk ->
  exists requestBody,
    json_Marshal (payload changelog) = inr requestBody /\
    field "version" (payload changelog) = Some (VString (Changelog.Version changelog)) /\
    deliveries (trace_of (cycle config env w)) =
      attempts env (n_post w) requestBody (Config.Notification_Webhooks config) /\
    store_writes (trace_of (cycle config env w)) = [("version.yml", data, WriteOk)] /\
    fs (world_of (cycle config env w)) !! "version.yml" = Some data /\
    res_of (cycle config env w) = Done tt.
Proof.
  intros Hget Hload Hdiff Hm Hw.
  destruct (json_Marshal_payload changelog) as [body Hbody].
  destruct (cycle_updated_outcome config env w changelog rest savedVersion data body
              Hget Hload Hdiff Hm Hw Hbody) as [Hd Hfs].
  exists body. split; [exact Hbody |]. split; [apply field_version |].
  split; [exact Hd |]. split; [| split; [exact Hfs |]].
  - rewrite (cycle_updated _ _ _ _ _ _ _ Hget Hload Hdiff Hm Hw).
    destruct (notify_run config changelog body env (after_save data (after_get w)) Hbody)
      as (_ & Hwr & _).
    unfold trace_of in *. cbn [fst].
    change (store_writes ([get_event env w; read_event w;
              LogPrintln ("New version is " +:+ Changelog.Version changelog);
              OsWriteFile "version.yml" data 420 WriteOk]
             ++ (notify config changelog env (after_save data (after_get w))).1.1)
            = [("version.yml", data, WriteOk)]).
    rewrite store_writes_app, Hwr. reflexivity.
  - rewrite (cycle_updated _ _ _ _ _ _ _ Hget Hload Hdiff Hm Hw). reflexivity.
Qed.

(** ** Persist first, notify second *)

Lemma SaveVersion_returns env w v : exists e, res_of (SaveVersion v env w) = Done e.
Proof.
  unfold SaveVersion, mbind, M_bind, bind, os_WriteFile, res_of.
  destruct (yaml_Marshal (Version.mk v)) as [err | data]; simpl; [eauto |].
  destruct (write_reply env (n_write w)); simpl; eauto.
Qed.

(** A cycle that makes a delivery went through the UPDATING branch with a
    save that succeeded. *)
Lemma cycle_delivers config env w :
  deliveries (trace_of (cycle config env w)) <> [] ->
  exists changelog rest savedVersion data,
    res_of (GetChangelogs env w) = Done (inr (changelog :: rest)) /\
    res_of (GetSavedVerison env w) = Done (inr savedVersion) /\
    Changelog.Version changelog <> Version.Version savedVersion /\
    yaml_Marshal (Version.mk (Changelog.Version changelog)) = inr data /\
    write_reply env (n_write w) = WriteOk.
Proof.
  intros Hpost.
  destruct (GetChangelogs_returns env w) as [[err | [| changelog rest]] Hget].
  { rewrite (cycle_fetch_failed _ _ _ _ Hget) in Hpost. contradiction Hpost; reflexivity. }
  { rewrite (cycle_no_changelogs _ _ _ Hget) in Hpost. contradiction Hpost; reflexivity. }
  destruct (GetSavedVerison_returns env w) as [[err | savedVersion] Hload].
  { rewrite (cycle_load_failed _ _ _ _ _ _ Hget Hload) in Hpost.
    contradiction Hpost; reflexivity. }
  destruct (decide (Changelog.Version changelog = Version.Version savedVersion))
    as [Hsame | Hdiff].
  { rewrite (cycle_unchanged _ _ _ _ _ _ Hget Hload Hsame) in Hpost.
    contradiction Hpost; reflexivity. }
  destruct (SaveVersion_returns env w (Changelog.Version changelog)) as [[err |] Hsave].
  { destruct (cycle_save_failed config _ _ _ _ _ _ Hget Hload Hdiff Hsave)
      as (Hcycle & Hd & _).
    rewrite Hcycle in Hpost. unfold trace_of at 1 in Hpost. cbn [fst] in Hpost.
    rewrite !deliveries_app, Hd in Hpost. contradiction Hpost; reflexivity. }
  destruct (SaveVersion_success _ _ _ Hsave) as (data & Hm & Hw).
  exists changelog, rest, savedVersion, data. auto.
Qed.

Lemma delivery_after_prefix (pre rest t1 t2 : list Event) e :
  pre ++ rest = t1 ++ e :: t2 ->
  deliveries pre = [] ->
  delivery_of e <> None ->
  exists t1', t1 = pre ++ t1'.
Proof.
  revert t1. induction pre as [| x pre IH]; intros t1 Heq Hpre He.
  - exists t1. reflexivity.
  - unfold deliveries in Hpre. simpl in Hpre.
    destruct (delivery_of x) eqn:Hx; [discriminate |].
    destruct t1 as [| y t1]; simpl in Heq; injection Heq as Hhead Htail.
    + subst x. contradiction.
    + subst y. destruct (IH t1 Htail Hpre He) as [t1' ->]. exists t1'. reflexivity.
Qed.

(** C2: in every cycle, a write failure means that no delivery is attempted,
    and every delivery attempt comes after the successful write of the
    record of the fetched first version to [version.yml]. *)
Theorem save_before_notify config env w :
  (write_reply env (n_write w) <> WriteOk ->
   deliveries (trace_of (cycle config env w)) = []) /\
  (forall t1 url contentType body reply t2,
     trace_of (cycle config env w) = t1 ++ HttpPost url contentType body reply :: t2 ->
     exists changelog rest data,
       res_of (GetChangelogs env w) = Done (inr (changelog :: rest)) /\
       yaml_Marshal (Version.mk (Changelog.Version changelog)) = inr data /\
       OsWriteFile "version.yml" data 420 WriteOk ∈ t1).
Proof.
  split.
  - intros Hfail.
    destruct (deliveries (trace_of (cycle config env w))) as [| d ds] eqn:Hd;
      [reflexivity |].
    destruct (cycle_delivers config env w) as (? & ? & ? & ? & _ & _ & _ & _ & Hw);
      [rewrite Hd; discriminate | contradiction].
  - intros t1 url contentType body reply t2 Htrace.
    destruct (cycle_delivers config env w)
      as (changelog & rest & savedVersion & data & Hget & Hload & Hdiff & Hm & Hw).
    { rewrite Htrace, deliveries_app. simpl. intros Hnil.
      apply app_eq_nil in Hnil as [_ Hnil]. discriminate Hnil. }
    exists changelog, rest, data. split; [exact Hget |]. split; [exact Hm |].
    rewrite (cycle_updated _ _ _ _ _ _ _ Hget Hload Hdiff Hm Hw) in Htrace.
    unfold trace_of at 1 in Htrace. cbn [fst] in Htrace.
    destruct (delivery_after_prefix _ _ _ _ _ Htrace) as [t1' ->];
      [reflexivity | discriminate |].
    set_solver.
Qed.

(** ** Partial-failure isolation *)

Lemma attempts_lookup env from body webhooks i :
  attempts env from body webhooks !! i =
    (λ url, (url, body, post_reply env (from + i)%nat)) <$> webhooks !! i.
Proof.
  revert from i. induction webhooks as [| url rest IH]; intros from i.
  - reflexivity.
  - destruct i as [| i]; simpl.
    + rewrite Nat.add_0_r. reflexivity.
    + rewrite IH. replace (S from + i)%nat with (from + S i)%nat by lia. reflexivity.
Qed.

Lemma attempts_length env from body webhooks :
  length (attempts env from body webhooks) = length webhooks.
Proof.
  revert from. induction webhooks as [| url rest IH]; intros from; simpl;
    [| rewrite IH]; reflexivity.
Qed.

(** C5: in a cycle of the UPDATING branch in which the delivery to some
    endpoint failed, the new version is in the store afterwards and every
    configured endpoint, whatever its position, has its delivery attempt. *)
Theorem delivery_failure_is_local config env w changelog rest savedVersion
    j failed_url failed_body failed_reply :
  res_of (GetChangelogs env w) = Done (inr (changelog :: rest)) ->
  res_of (GetSavedVerison env w) = Done (inr savedVersion) ->
  Changelog.Version changelog <> Version.Version savedVersion ->
  deliveries (trace_of (cycle config env w)) !! j
    = Some (failed_url, failed_body, failed_reply) ->
  failed_reply <> PostResp StatusOK ->
  (exists data,
     yaml_Marshal (Version.mk (Changelog.Version changelog)) = inr data /\
     fs (world_of (cycle config env w)) !! "version.yml" = Some data) /\
  length (deliveries (trace_of (cycle config env w)))
    = length (Config.Notification_Webhooks config) /\
  (forall i url,
     Config.Notification_Webhooks config !! i = Some url ->
     exists body,
       deliveries (trace_of (cycle config env w)) !! i
         = Some (url, body, post_reply env (n_post w + i)%nat)).
Proof.
  intros Hget Hload Hdiff Hj Hfailed.
  destruct (cycle_delivers config env w)
    as (changelog' & rest' & savedVersion' & data & Hget' & _ & _ & Hm & Hw).
  { intros Hnil. rewrite Hnil in Hj. discriminate Hj. }
  rewrite Hget in Hget'. injection Hget' as <- <-.
  destruct (json_Marshal_payload changelog) as [body Hbody].
  destruct (cycle_updated_outcome config env w changelog rest savedVersion data body
              Hget Hload Hdiff Hm Hw Hbody) as [Hd Hfs].
  split; [exists data; auto |].
  rewrite Hd. split; [apply attempts_length |].
  intros i url Hi. exists body. rewrite attempts_lookup, Hi. reflexivity.
Qed.

(** ** Errors end the process *)

Lemma cron_run_exited ticks (job : M unit) env w code :
  res_of (job env w) = Exited code ->
  cron_run (S ticks) job env w = job env w.
Proof.
  intros Hres. simpl.
  destruct (job env w) as [[t w1] r] eqn:E. unfold res_of in Hres. simpl in Hres.
  subst r. apply bind_exit. exact E.
Qed.

Lemma cycle_error_result config env w :
  cycle_error env w -> res_of (cycle config env w) = Exited 1.
Proof.
  intros [[err Hget] | [(changelog & rest & err & Hget & Hload)
                       | (changelog & rest & savedVersion & err
                          & Hget & Hload & Hdiff & Hsave)]].
  - rewrite (cycle_fetch_failed _ _ _ _ Hget). reflexivity.
  - rewrite (cycle_load_failed _ _ _ _ _ _ Hget Hload). reflexivity.
  - destruct (cycle_save_failed config _ _ _ _ _ _ Hget Hload Hdiff Hsave)
      as (Hcycle & _).
    rewrite Hcycle. reflexivity.
Qed.

(** C3 (amended): a fetch error, a load failure or a save failure in a cycle
    ends the whole process: the cycle exits with status 1 through
    [log.Fatalln], and however many ticks follow, nothing more is run. *)
Theorem cycle_error_exits config env w :
  cycle_error env w ->
  res_of (cycle config env w) = Exited 1 /\
  forall ticks, cron_run (S ticks) (cycle config) env w = cycle config env w.
Proof.
  intros Herr. pose proof (cycle_error_result config env w Herr) as Hres.
  split; [exact Hres |]. intros ticks. apply (cron_run_exited _ _ _ _ _ Hres).
Qed.

(** ** Seeding *)

Lemma startup_seed config env w :
  fs w !! "version.yml" = None ->
  startup config env w =
    let seed : M unit :=
      r ← GetChangelogs;
      match r with
      | inl err => log_Fatalln ("Failed to get changelogs: " +:+ err)
      | inr changelogs =>
          match changelogs with
          | [] => log_Fatalln "no changelogs found"
          | changelog :: _ =>
              e ← SaveVersion (Changelog.Version changelog);
              match e with
              | Some err => log_Fatalln ("Failed to save version: " +:+ err)
              | None =>
                  log_Println ("Version of the first item: "
                               +:+ Changelog.Version changelog)
              end
          end
      end in
    ((if Config.App_LoadOnStartup config then []
      else [OsStat "version.yml" false]) ++ trace_of (seed env w),
     world_of (seed env w), res_of (seed env w)).
Proof.
  intros Hnone. unfold startup. cbv zeta.
  destruct (Config.App_LoadOnStartup config).
  - erewrite bind_done; [| reflexivity]. reflexivity.
  - erewrite bind_done; cycle 1.
    { unfold DoesFileExist.
      erewrite bind_done; [| unfold os_Stat; rewrite Hnone; reflexivity].
      reflexivity. }
    reflexivity.
Qed.

(** C4 (amended): a run that starts with no [version.yml], fetches a
    non-empty list with first version V1 and whose save of V1 succeeds,
    leaves the record of V1 in the store and attempts no delivery. *)
Theorem seeding config env w changelog rest data :
  fs w !! "version.yml" = None ->
  res_of (GetChangelogs env w) = Done (inr (changelog :: rest)) ->
  yaml_Marshal (Version.mk (Changelog.Version changelog)) = inr data ->
  write_reply env (n_write w) = WriteOk ->
  fs (world_of (startup config env w)) !! "version.yml" = Some data /\
  store_writes (trace_of (startup config env w)) = [("version.yml", data, WriteOk)] /\
  deliveries (trace_of (startup config env w)) = [] /\
  res_of (startup config env w) = Done tt.
Proof.
  intros Hnone Hget Hm Hw.
  rewrite (startup_seed config env w Hnone). cbv zeta.
  pose proof (GetChangelogs_run env w) as Hrun. rewrite Hget in Hrun.
  rewrite (bind_done _ _ _ _ _ _ _ Hrun).
  rewrite (bind_done _ _ _ _ _ _ _ (SaveVersion_ok env (after_get w) _ _ Hm Hw)).
  unfold trace_of, world_of, res_of, log_Println. cbn [fst snd fs].
  split; [apply lookup_insert_eq |].
  destruct (Config.App_LoadOnStartup config); repeat split.
Qed.

(** ** Fetch failure *)

(** C6: a cycle whose fetch fails, or yields an empty list, writes nothing
    to the store, leaves the file system as it was and attempts no
    delivery. *)
Theorem fetch_failure_is_inert config env w :
  (exists err, res_of (GetChangelogs env w) = Done (inl err)) \/
  res_of (GetChangelogs env w) = Done (inr []) ->
  store_writes (trace_of (cycle config env w)) = [] /\
  fs (world_of (cycle config env w)) = fs w /\
  deliveries (trace_of (cycle config env w)) = [].
Proof.
  intros [[err Hget] | Hget].
  - rewrite (cycle_fetch_failed _ _ _ _ Hget). repeat split.
  - rewrite (cycle_no_changelogs _ _ _ Hget). repeat split.
Qed.

(** When [GetChangelogs] reports an error: transport error, status other
    than 200, or a body that does not decode. *)
Lemma GetChangelogs_error env w err :
  res_of (GetChangelogs env w) = Done (inl err) <->
  match get_reply env (n_get w) with
  | GetErr e => err = "error making GET request: " +:+ e
  | GetResp StatusCode decoded =>
      if bool_decide (StatusCode = StatusOK) then
        match decoded with
        | inl e => err = "error decoding response body: " +:+ e
        | inr _ => False
        end
      else err = "unexpected status code: " +:+ pretty StatusCode
  end.
Proof.
  unfold GetChangelogs, mbind, M_bind, bind, http_Get, res_of.
  destruct (get_reply env (n_get w)) as [e | code [e | parsed]]; simpl;
    repeat case_bool_decide; simpl; try contradiction;
    split; intros ?; subst; try reflexivity; try congruence; try contradiction.
Qed.

(** ** Round trip through the store *)


(** ** Idempotence *)



(** ** The payload *)

(** C8: the [hasModUpdate] field of the payload is the string [true] exactly
    when the entry's mod-change list is non-empty, and the string [false]
    exactly when it is empty. *)
Theorem hasModUpdate_iff changelog :
  (field "hasModUpdate" (payload changelog) = Some (VString "true")
     <-> Changelog.ChangeMod changelog <> []) /\
  (field "hasModUpdate" (payload changelog) = Some (VString "false")
     <-> Changelog.ChangeMod changelog = []).
Proof.
  assert (Hfield : field "hasModUpdate" (payload changelog)
                   = Some (VString (strconv_FormatBool
                        (0 <? length (Changelog.ChangeMod changelog))%nat)))
    by reflexivity.
  rewrite Hfield.
  destruct (Changelog.ChangeMod changelog) as [| m ms]; simpl;
    (split; split; intros H; try reflexivity; try discriminate; try congruence).
Qed.

(** The events of the notification loop: POSTs and delivery-failure lines. *)
Lemma notify_events config changelog env w e :
  e ∈ trace_of (notify config changelog env w) ->
  (exists url body reply, e = HttpPost url "application/json" body reply) \/
  (exists err, e = LogPrintln ("Failed to trigger webhook: " +:+ err)).
Proof.
  destruct (json_Marshal_payload changelog) as [body Hbody].
  unfold notify. rewrite Hbody.
  generalize (Config.Notification_Webhooks config). intros webhooks.
  revert w. induction webhooks as [| url rest IH]; intros w.
  - simpl. intros Hin. inversion Hin.
  - simpl for_range.
    assert (Hturn : exists logs,
      (TriggerWebhook url body ≫= λ e : option error,
         match e with
         | Some err => log_Println ("Failed to trigger webhook: " +:+ err)
         | None => mret ()
         end) env w =
        (HttpPost url "application/json" body (post_reply env (n_post w)) :: logs,
         after_posts 1 w, Done tt) /\
      (logs = [] \/ exists err,
          logs = [LogPrintln ("Failed to trigger webhook: " +:+ err)])).
    { unfold TriggerWebhook, mbind, M_bind, bind, http_Post, after_posts, log_Println.
      destruct (post_reply env (n_post w)) as [err | code]; simpl.
      - eexists; split; [reflexivity | right; eexists; reflexivity].
      - case_bool_decide; simpl; eexists;
          (split; [reflexivity | (left; reflexivity) || (right; eexists; reflexivity)]). }
    destruct Hturn as (logs & Hturn & Hlogs).
    rewrite (bind_done _ _ _ _ _ _ _ Hturn).
    unfold trace_of at 1. cbn [fst].
    rewrite elem_of_app, elem_of_cons.
    intros [[-> | Hin] | Hin].
    + left. eauto.
    + right. destruct Hlogs as [-> | [err ->]]; [inversion Hin |].
      apply list_elem_of_singleton in Hin. eauto.
    + apply (IH _ Hin).
Qed.

(** C10: marshalling the payload of any changelog entry succeeds; in the
    notification loop no endpoint is skipped, and the line logged on a
    marshalling error never appears. *)
Theorem marshal_never_fails changelog config env w :
  (exists requestBody,
     json_Marshal (payload changelog) = inr requestBody /\
     deliveries (trace_of (notify config changelog env w)) =
       attempts env (n_post w) requestBody (Config.Notification_Webhooks config)) /\
  (forall err,
     LogPrintln ("Failed to marshal request body: " +:+ err)
       ∉ trace_of (notify config changelog env w)).
Proof.
  split.
  - destruct (json_Marshal_payload changelog) as [body Hbody].
    exists body. split; [exact Hbody |].
    apply (notify_run config changelog body env w Hbody).
  - intros err Hin.
    destruct (notify_events _ _ _ _ _ Hin) as [(url & body & reply & H) | [err' H]];
      [discriminate H |].
    vm_compute in H. discriminate H.
Qed.

End Properties.

(** * Concrete runs *)

Section Runs.
Existing Instance flatYaml.

Lemma change_detection_witness :
  res_of (GetChangelogs env_B_down world_old) = Done (inr (entry_new :: entries_rest)) /\
  res_of (GetSavedVerison env_B_down world_old) = Done (inr (Version.mk "2.0.5.1")) /\
  Changelog.Version entry_new <> "2.0.5.1" /\
  yaml_Marshal (Version.mk (Changelog.Version entry_new)) = inr record_new /\
  write_reply env_B_down (n_write world_old) = WriteOk /\
  exists requestBody,
    json_Marshal (payload entry_new) = inr requestBody /\
    field "version" (payload entry_new) = Some (VString "2.0.5.2") /\
    deliveries (trace_of (cycle sample_config env_B_down world_old)) =
      [("A", requestBody, PostResp 200); ("B", requestBody, PostResp 500);
       ("C", requestBody, PostResp 200)] /\
    store_writes (trace_of (cycle sample_config env_B_down world_old)) =
      [("version.yml", record_new, WriteOk)] /\
    fs (world_of (cycle sample_config env_B_down world_old)) !! "version.yml"
      = Some record_new /\
    res_of (cycle sample_config env_B_down world_old) = Done tt.
Proof.
  assert (H1 : res_of (GetChangelogs env_B_down world_old)
               = Done (inr (entry_new :: entries_rest))) by reflexivity.
  assert (H2 : res_of (GetSavedVerison env_B_down world_old)
               = Done (inr (Version.mk "2.0.5.1"))) by reflexivity.
  assert (H3 : Changelog.Version entry_new <> "2.0.5.1") by discriminate.
  assert (H4 : yaml_Marshal (Version.mk (Changelog.Version entry_new))
               = inr record_new) by reflexivity.
  assert (H5 : write_reply env_B_down (n_write world_old) = WriteOk) by reflexivity.
  repeat (split; [assumption |]).
  exact (change_detection sample_config env_B_down world_old entry_new entries_rest
           (Version.mk "2.0.5.1") record_new H1 H2 H3 H4 H5).
Defined.

(** C1 as stated fails: with [version.yml] not writable the cycle stops at
    the save and no endpoint is contacted. *)
Lemma change_detection_needs_save : ~ change_detection_as_stated.
Proof.
  intros H.
  destruct (H flatYaml sample_config env_read_only world_old entry_new entries_rest
              (Version.mk "2.0.5.1"))
    as (body & data & _ & _ & Hd & _ & _);
    [reflexivity | reflexivity | discriminate |].
  vm_compute in Hd. discriminate Hd.
Qed.

(** The run behind it: fetch, load, the log line, the refused write, the
    fatal log line, exit; [version.yml] still holds 2.0.5.1. *)
Example cycle_read_only :
  cycle sample_config env_read_only world_old =
    ([get_event env_read_only world_old; read_event world_old;
      LogPrintln "New version is 2.0.5.2";
      OsWriteFile "version.yml" record_new 420
        (WriteErr "open version.yml: permission denied" None);
      LogPrintln
        "Failed to save version: error writing to file: open version.yml: permission denied";
      OsExit 1],
     mkWorld (fs world_old) 1 1 0, Exited 1).
Proof. vm_compute. reflexivity. Qed.

Lemma flat_roundtrip_2052 : yaml_roundtrip_at "2.0.5.2".
Proof. intros data [= <-]. reflexivity. Defined.

(** The body sent for 2.0.5.2 is the payload documented in the README, in
    compact form with sorted keys. *)
Example body_new_text :
  body_new =
    "{" +:+ quoted "content" +:+ ":" +:+ quoted "New version 2.0.5.2 is available!"
    +:+ "," +:+ quoted "hasModUpdate" +:+ ":" +:+ quoted "false"
    +:+ "," +:+ quoted "releaseAt" +:+ ":" +:+ quoted "2024-05-23 00:00:00"
    +:+ "," +:+ quoted "size" +:+ ":" +:+ quoted ""
    +:+ "," +:+ quoted "version" +:+ ":" +:+ quoted "2.0.5.2" +:+ "}".
Proof. reflexivity. Qed.

(** [json.Marshal] does fail on a map that holds a channel. *)
Example json_Marshal_chan :
  json_Marshal [("content", VString "x"); ("c", VUnsupported "chan int")]
    = inl "json: unsupported type: chan int".
Proof. reflexivity. Qed.

Lemma save_before_notify_witness :
  (write_reply env_read_only (n_write world_old) <> WriteOk /\
   deliveries (trace_of (cycle sample_config env_read_only world_old)) = []) /\
  (trace_of (cycle sample_config env_B_down world_old) =
     [get_event env_B_down world_old; read_event world_old;
      LogPrintln "New version is 2.0.5.2";
      OsWriteFile "version.yml" record_new 420 WriteOk]
     ++ HttpPost "A" "application/json" body_new (PostResp 200)
     :: [HttpPost "B" "application/json" body_new (PostResp 500);
         LogPrintln "Failed to trigger webhook: unexpected status code: 500";
         HttpPost "C" "application/json" body_new (PostResp 200)] /\
   exists changelog rest data,
     res_of (GetChangelogs env_B_down world_old) = Done (inr (changelog :: rest)) /\
     yaml_Marshal (Version.mk (Changelog.Version changelog)) = inr data /\
     OsWriteFile "version.yml" data 420 WriteOk
       ∈ [get_event env_B_down world_old; read_event world_old;
          LogPrintln "New version is 2.0.5.2";
          OsWriteFile "version.yml" record_new 420 WriteOk]).
Proof.
  assert (H1 : write_reply env_read_only (n_write world_old) <> WriteOk)
    by discriminate.
  assert (H2 : trace_of (cycle sample_config env_B_down world_old) =
     [get_event env_B_down world_old; read_event world_old;
      LogPrintln "New version is 2.0.5.2";
      OsWriteFile "version.yml" record_new 420 WriteOk]
     ++ HttpPost "A" "application/json" body_new (PostResp 200)
     :: [HttpPost "B" "application/json" body_new (PostResp 500);
         LogPrintln "Failed to trigger webhook: unexpected status code: 500";
         HttpPost "C" "application/json" body_new (PostResp 200)])
    by (vm_compute; reflexivity).
  split.
  - split; [exact H1 |].
    exact (proj1 (save_before_notify sample_config env_read_only world_old) H1).
  - split; [exact H2 |].
    exact (proj2 (save_before_notify sample_config env_B_down world_old)
             _ _ _ _ _ _ H2).
Defined.

Lemma cycle_error_exits_witness :
  cycle_error env_api_down world_old /\
  res_of (cycle sample_config env_api_down world_old) = Exited 1 /\
  forall ticks,
    cron_run (S ticks) (cycle sample_config) env_api_down world_old
      = cycle sample_config env_api_down world_old.
Proof.
  assert (H : cycle_error env_api_down world_old)
    by (left; eexists; reflexivity).
  split; [exact H |].
  exact (cycle_error_exits sample_config env_api_down world_old H).
Defined.

(** C3 as stated fails: with the API unreachable the cycle exits the
    process, and of two ticks only the first gets to fetch. *)
Lemma errors_are_fatal : ~ errors_survived_as_stated.
Proof.
  intros H.
  destruct (H flatYaml sample_config env_api_down world_old) as [Hres _].
  - left. eexists. reflexivity.
  - vm_compute in Hres. discriminate Hres.
Qed.

(** The whole process at the same input: it starts, the first tick fails
    to fetch, and the process is gone before the second tick. *)
Example main_api_down :
  main 2 env_api_down world_old =
    ([OsStat "version.yml" true;
      LogPrintln "Panthor Update Notification started...";
      get_event env_api_down world_old;
      LogPrintln
        "Failed to get changelogs: error making GET request: dial tcp: connection refused";
      OsExit 1],
     after_get world_old, Exited 1).
Proof. vm_compute. reflexivity. Qed.

Lemma seeding_witness :
  fs world_fresh !! "version.yml" = None /\
  res_of (GetChangelogs env_B_down world_fresh)
    = Done (inr (entry_new :: entries_rest)) /\
  yaml_Marshal (Version.mk (Changelog.Version entry_new)) = inr record_new /\
  write_reply env_B_down (n_write world_fresh) = WriteOk /\
  fs (world_of (startup sample_config env_B_down world_fresh)) !! "version.yml"
    = Some record_new /\
  store_writes (trace_of (startup sample_config env_B_down world_fresh))
    = [("version.yml", record_new, WriteOk)] /\
  deliveries (trace_of (startup sample_config env_B_down world_fresh)) = [] /\
  res_of (startup sample_config env_B_down world_fresh) = Done tt.
Proof.
  assert (H1 : fs world_fresh !! "version.yml" = None) by reflexivity.
  assert (H2 : res_of (GetChangelogs env_B_down world_fresh)
               = Done (inr (entry_new :: entries_rest))) by reflexivity.
  assert (H3 : yaml_Marshal (Version.mk (Changelog.Version entry_new))
               = inr record_new) by reflexivity.
  assert (H4 : write_reply env_B_down (n_write world_fresh) = WriteOk) by reflexivity.
  repeat (split; [assumption |]).
  exact (seeding sample_config env_B_down world_fresh entry_new entries_rest
           record_new H1 H2 H3 H4).
Defined.

(** C4 as stated fails: with [version.yml] not writable the start-up block
    stops at the save and the store stays empty. *)
Lemma seeding_needs_save : ~ seeding_as_stated.
Proof.
  intros H.
  destruct (H flatYaml sample_config env_read_only world_fresh entry_new entries_rest)
    as [(data & _ & Hfs) _]; [reflexivity | reflexivity |].
  vm_compute in Hfs. discriminate Hfs.
Qed.

(** The run behind it. *)
Example startup_read_only :
  startup sample_config env_read_only world_fresh =
    ([OsStat "version.yml" false; get_event env_read_only world_fresh;
      OsWriteFile "version.yml" record_new 420
        (WriteErr "open version.yml: permission denied" None);
      LogPrintln
        "Failed to save version: error writing to file: open version.yml: permission denied";
      OsExit 1],
     mkWorld ∅ 1 1 0, Exited 1).
Proof. vm_compute. reflexivity. Qed.

Lemma delivery_failure_is_local_witness :
  res_of (GetChangelogs env_B_down world_old) = Done (inr (entry_new :: entries_rest)) /\
  res_of (GetSavedVerison env_B_down world_old) = Done (inr (Version.mk "2.0.5.1")) /\
  Changelog.Version entry_new <> "2.0.5.1" /\
  deliveries (trace_of (cycle sample_config env_B_down world_old)) !! 1%nat
    = Some ("B", body_new, PostResp 500) /\
  PostResp 500 <> PostResp StatusOK /\
  (exists data,
     yaml_Marshal (Version.mk (Changelog.Version entry_new)) = inr data /\
     fs (world_of (cycle sample_config env_B_down world_old)) !! "version.yml"
       = Some data) /\
  length (deliveries (trace_of (cycle sample_config env_B_down world_old)))
    = 3%nat /\
  (forall i url,
     ["A"; "B"; "C"] !! i = Some url ->
     exists body,
       deliveries (trace_of (cycle sample_config env_B_down world_old)) !! i
         = Some (url, body, post_reply env_B_down (0 + i)%nat)).
Proof.
  assert (H1 : res_of (GetChangelogs env_B_down world_old)
               = Done (inr (entry_new :: entries_rest))) by reflexivity.
  assert (H2 : res_of (GetSavedVerison env_B_down world_old)
               = Done (inr (Version.mk "2.0.5.1"))) by reflexivity.
  assert (H3 : Changelog.Version entry_new <> "2.0.5.1") by discriminate.
  assert (H4 : deliveries (trace_of (cycle sample_config env_B_down world_old)) !! 1%nat
               = Some ("B", body_new, PostResp 500)) by (vm_compute; reflexivity).
  assert (H5 : PostResp 500 <> PostResp StatusOK) by discriminate.
  repeat (split; [assumption |]).
  exact (delivery_failure_is_local sample_config env_B_down world_old entry_new
           entries_rest (Version.mk "2.0.5.1") 1%nat "B" body_new (PostResp 500)
           H1 H2 H3 H4 H5).
Defined.

Lemma fetch_failure_is_inert_witness :
  ((exists err, res_of (GetChangelogs env_api_down world_old) = Done (inl err)) \/
   res_of (GetChangelogs env_api_down world_old) = Done (inr [])) /\
  store_writes (trace_of (cycle sample_config env_api_down world_old)) = [] /\
  fs (world_of (cycle sample_config env_api_down world_old)) = fs world_old /\
  deliveries (trace_of (cycle sample_config env_api_down world_old)) = [].
Proof.
  assert (H : (exists err,
                 res_of (GetChangelogs env_api_down world_old) = Done (inl err)) \/
              res_of (GetChangelogs env_api_down world_old) = Done (inr []))
    by (left; eexists; reflexivity).
  split; [exact H |].
  exact (fetch_failure_is_inert sample_config env_api_down world_old H).
Defined.

(** The empty list, the other half of C6. *)
Example cycle_api_empty :
  cycle sample_config env_api_empty world_old =
    ([get_event env_api_empty world_old; LogPrintln "no changelogs found"; OsExit 1],
     after_get world_old, Exited 1).
Proof. vm_compute. reflexivity. Qed.



End Runs.

(** * Further properties of the program *)

Section Coverage.
Context {yaml : Yaml}.

(** ** [SaveVersion] and the file system *)

Lemma SaveVersion_run env w v :
  match yaml_Marshal (Version.mk v) with
  | inl err =>
      SaveVersion v env w
        = ([], w, Done (Some ("error marshaling data to YAML: " +:+ err)))
  | inr data =>
      SaveVersion v env w
        = ([OsWriteFile "version.yml" data 420 (write_reply env (n_write w))],
           mkWorld (fs_after_write "version.yml" data (write_reply env (n_write w)) (fs w))
                   (n_get w) (S (n_write w)) (n_post w),
           Done match write_reply env (n_write w) with
                | WriteOk => None
                | WriteErr err _ => Some ("error writing to file: " +:+ err)
                end)
  end.
Proof.
  unfold SaveVersion, mbind, M_bind, bind, os_WriteFile.
  destruct (yaml_Marshal (Version.mk v)) as [err | data]; [reflexivity |].
  destruct (write_reply env (n_write w)) as [| err k]; reflexivity.
Qed.

Lemma fs_after_write_other name data reply (files : gmap string string) other :
  other <> name -> fs_after_write name data reply files !! other = files !! other.
Proof.
  intros Hne. destruct reply as [| err [k |]]; simpl;
    rewrite ?lookup_insert_ne by congruence; reflexivity.
Qed.

Lemma SaveVersion_other env w v name :
  name <> "version.yml" ->
  fs (world_of (SaveVersion v env w)) !! name = fs w !! name.
Proof.
  intros Hne. pose proof (SaveVersion_run env w v) as Hrun.
  destruct (yaml_Marshal (Version.mk v)) as [err | data]; rewrite Hrun; simpl.
  - reflexivity.
  - apply fs_after_write_other, Hne.
Qed.

(** What [SaveVersion] returns and writes does not depend on the GET counter. *)
Lemma SaveVersion_res_after_get env w v :
  res_of (SaveVersion v env (after_get w)) = res_of (SaveVersion v env w).
Proof.
  pose proof (SaveVersion_run env w v) as H.
  pose proof (SaveVersion_run env (after_get w) v) as H'.
  destruct (yaml_Marshal (Version.mk v)); rewrite H, H'; reflexivity.
Qed.

(** ** Every cycle takes one of six branches *)

Lemma cycle_branches env w : CycleBranch env w.
Proof.
  destruct (GetChangelogs_returns env w) as [[err | [| changelog rest]] Hget].
  { exact (BranchFetchFailed env w err Hget). }
  { exact (BranchNoChangelogs env w Hget). }
  destruct (GetSavedVerison_returns env w) as [[err | savedVersion] Hload].
  { exact (BranchLoadFailed env w changelog rest err Hget Hload). }
  destruct (decide (Changelog.Version changelog = Version.Version savedVersion))
    as [Hsame | Hdiff].
  { exact (BranchUnchanged env w changelog rest savedVersion Hget Hload Hsame). }
  destruct (SaveVersion_returns env w (Changelog.Version changelog)) as [[err |] Hsave].
  { exact (BranchSaveFailed env w changelog rest savedVersion err Hget Hload Hdiff Hsave). }
  destruct (SaveVersion_success _ _ _ Hsave) as (data & Hm & Hw).
  exact (BranchUpdated env w changelog rest savedVersion data Hget Hload Hdiff Hm Hw).
Qed.

Ltac by_branch config env w :=
  destruct (cycle_branches env w)
    as [err Hget | Hget | changelog rest err Hget Hload
       | changelog rest savedVersion Hget Hload Hsame
       | changelog rest savedVersion err Hget Hload Hdiff Hsave
       | changelog rest savedVersion data Hget Hload Hdiff Hm Hw];
  [ rewrite (cycle_fetch_failed config _ _ _ Hget)
  | rewrite (cycle_no_changelogs config _ _ Hget)
  | rewrite (cycle_load_failed config _ _ _ _ _ Hget Hload)
  | rewrite (cycle_unchanged config _ _ _ _ _ Hget Hload Hsame)
  | let Hcycle := fresh "Hcycle" in
    let Hsd := fresh "Hsd" in
    let Hsw := fresh "Hsw" in
    destruct (cycle_save_failed config _ _ _ _ _ _ Hget Hload Hdiff Hsave)
      as (Hcycle & Hsd & Hsw);
    rewrite Hcycle
  | rewrite (cycle_updated config _ _ _ _ _ _ Hget Hload Hdiff Hm Hw) ].

(** ** When a cycle ends the process *)

(** X1: A cycle either returns or exits with status 1, and it exits exactly when
    the fetch fails, the fetched list is empty, the load fails, or the save
    of a new version fails. *)
Theorem cycle_exit_iff config env w :
  (res_of (cycle config env w) = Done tt \/ res_of (cycle config env w) = Exited 1) /\
  (res_of (cycle config env w) = Exited 1 <->
   cycle_error env w \/ res_of (GetChangelogs env w) = Done (inr [])).
Proof.
  split.
  - by_branch config env w; unfold res_of; simpl; auto.
  - split.
    + by_branch config env w; unfold res_of; simpl; intros Hres;
        try discriminate Hres.
      * left. left. eauto.
      * right. exact Hget.
      * left. right. left. eauto.
      * left. right. right. eauto 10.
    + intros [Herr | Hempty].
      * apply cycle_error_result, Herr.
      * rewrite (cycle_no_changelogs config _ _ Hempty). reflexivity.
Qed.

(** ** What a cycle costs *)

(** X2: Every cycle makes exactly one GET, and makes it first. *)
Theorem cycle_one_fetch config env w :
  exists t, trace_of (cycle config env w) = get_event env w :: t /\ fetches t = [].
Proof.
  by_branch config env w; unfold trace_of; cbn [fst app];
    eexists; (split; [reflexivity |]); try reflexivity.
  - pose proof (SaveVersion_run env (after_get w) (Changelog.Version changelog)) as Hrun.
    destruct (yaml_Marshal (Version.mk (Changelog.Version changelog)));
      rewrite Hrun; reflexivity.
  - destruct (json_Marshal_payload changelog) as [body Hbody].
    destruct (notify_run config changelog body env (after_save data (after_get w)) Hbody)
      as (_ & _ & Hf & _).
    unfold trace_of, fetches in *. simpl. exact Hf.
Qed.

(** X3: A cycle writes at most once, and only the record of the first fetched
    version, to [version.yml] with permission 0644. *)
Theorem cycle_one_write config env w :
  store_writes (trace_of (cycle config env w)) = [] \/
  exists changelog rest data reply,
    res_of (GetChangelogs env w) = Done (inr (changelog :: rest)) /\
    yaml_Marshal (Version.mk (Changelog.Version changelog)) = inr data /\
    store_writes (trace_of (cycle config env w)) = [("version.yml", data, reply)] /\
    OsWriteFile "version.yml" data 420 reply ∈ trace_of (cycle config env w).
Proof.
  by_branch config env w; unfold trace_of; cbn [fst]; try (left; reflexivity).
  - pose proof (SaveVersion_run env (after_get w) (Changelog.Version changelog)) as Hrun.
    destruct (yaml_Marshal (Version.mk (Changelog.Version changelog))) as [merr | data]
      eqn:Hm; rewrite Hrun; simpl; [left; reflexivity |].
    right. exists changelog, rest, data, (write_reply env (n_write w)).
    split; [exact Hget |]. split; [exact Hm |]. split; [reflexivity | set_solver].
  - right. exists changelog, rest, data, WriteOk.
    split; [exact Hget |]. split; [exact Hm |].
    destruct (json_Marshal_payload changelog) as [body Hbody].
    destruct (notify_run config changelog body env (after_save data (after_get w)) Hbody)
      as (_ & Hwr & _).
    unfold trace_of in Hwr. split; [| set_solver].
    change (store_writes ([get_event env w; read_event w;
              LogPrintln ("New version is " +:+ Changelog.Version changelog);
              OsWriteFile "version.yml" data 420 WriteOk]
             ++ (notify config changelog env (after_save data (after_get w))).1.1)
            = [("version.yml", data, WriteOk)]).
    rewrite store_writes_app, Hwr. reflexivity.
Qed.

(** X4: A cycle never notifies a part of the endpoints: it attempts no delivery,
    or one per configured endpoint. *)
Theorem cycle_all_or_nothing config env w :
  deliveries (trace_of (cycle config env w)) = [] \/
  (λ a, a.1.1) <$> deliveries (trace_of (cycle config env w))
    = Config.Notification_Webhooks config.
Proof.
  destruct (deliveries (trace_of (cycle config env w))) as [| d ds] eqn:Hd;
    [left; reflexivity | right].
  destruct (cycle_delivers config env w)
    as (changelog & rest & savedVersion & data & Hget & Hload & Hdiff & Hm & Hw);
    [rewrite Hd; discriminate |].
  destruct (json_Marshal_payload changelog) as [body Hbody].
  destruct (cycle_updated_outcome config env w changelog rest savedVersion data body
              Hget Hload Hdiff Hm Hw Hbody) as [Hd' _].
  rewrite <- Hd, Hd'. clear.
  generalize (n_post w). induction (Config.Notification_Webhooks config) as [| url l IH];
    intros from; simpl; [reflexivity | rewrite IH; reflexivity].
Qed.

(** ** Files other than [version.yml] *)

Lemma keeps_ret {A} (a : A) : keeps_other_files (mret a : M A).
Proof. intros env w name _. reflexivity. Qed.

Lemma keeps_bind {A B} (m : M A) (f : A -> M B) :
  keeps_other_files m -> (forall a, keeps_other_files (f a)) ->
  keeps_other_files (m ≫= f).
Proof.
  intros Hm Hf env w name Hne. specialize (Hm env w name Hne).
  unfold mbind, M_bind, bind.
  destruct (m env w) as [[t1 w1] [a | code]]; [| exact Hm].
  specialize (Hf a env w1 name Hne).
  destruct (f a env w1) as [[t2 w2] r]. unfold world_of in *. simpl in *. congruence.
Qed.

Lemma keeps_http_Get url : keeps_other_files (http_Get url).
Proof. intros env w name _. reflexivity. Qed.

Lemma keeps_http_Post url contentType body :
  keeps_other_files (http_Post url contentType body).
Proof. intros env w name _. reflexivity. Qed.

Lemma keeps_os_Stat name : keeps_other_files (os_Stat name).
Proof. intros env w other _. reflexivity. Qed.

Lemma keeps_os_ReadFile name : keeps_other_files (os_ReadFile name).
Proof. intros env w other _. reflexivity. Qed.

Lemma keeps_os_WriteFile data perm :
  keeps_other_files (os_WriteFile "version.yml" data perm).
Proof. intros env w other Hne. apply fs_after_write_other, Hne. Qed.

Lemma keeps_log_Println line : keeps_other_files (log_Println line).
Proof. intros env w name _. reflexivity. Qed.

Lemma keeps_log_Fatalln {A} line : keeps_other_files (log_Fatalln line : M A).
Proof. intros env w name _. reflexivity. Qed.

Lemma keeps_LoadConfig filename : keeps_other_files (LoadConfig filename).
Proof. intros env w name _. reflexivity. Qed.

Ltac keeps_step :=
  first
    [ apply keeps_bind; [| intros ?]
    | apply keeps_ret | apply keeps_http_Get | apply keeps_http_Post
    | apply keeps_os_Stat | apply keeps_os_ReadFile | apply keeps_os_WriteFile
    | apply keeps_log_Println | apply keeps_log_Fatalln | apply keeps_LoadConfig
    | progress cbv zeta
    | match goal with
      | |- keeps_other_files (match ?x with _ => _ end) => destruct x
      end ].

Lemma keeps_for_range {A} (l : list A) (body : A -> M unit) :
  (forall x, keeps_other_files (body x)) -> keeps_other_files (for_range l body).
Proof.
  intros Hbody. induction l as [| x l IH]; simpl.
  - apply keeps_ret.
  - apply keeps_bind; [apply Hbody | intros _; exact IH].
Qed.

Lemma keeps_cycle config : keeps_other_files (cycle config).
Proof.
  unfold cycle, GetChangelogs, GetSavedVerison, SaveVersion, notify.
  repeat keeps_step.
  apply keeps_for_range. intros webhook. unfold TriggerWebhook. repeat keeps_step.
Qed.

Lemma keeps_startup config : keeps_other_files (startup config).
Proof.
  unfold startup, DoesFileExist, GetChangelogs, SaveVersion. repeat keeps_step.
Qed.

Lemma keeps_cron_run ticks (job : M unit) :
  keeps_other_files job -> keeps_other_files (cron_run ticks job).
Proof.
  intros Hjob. induction ticks as [| n IH]; simpl.
  - apply keeps_ret.
  - apply keeps_bind; [exact Hjob | intros _; exact IH].
Qed.

(** X5: The only file the process ever changes is [version.yml]: whatever the
    configuration, the answers it gets and the number of ticks, every other
    file is afterwards as it was. *)
Theorem main_touches_only_version_yml ticks env w name :
  name <> "version.yml" ->
  fs (world_of (main ticks env w)) !! name = fs w !! name.
Proof.
  revert env w name. change (keeps_other_files (main ticks)).
  unfold main. apply keeps_bind; [apply keeps_LoadConfig |].
  intros [err | config]; [apply keeps_log_Fatalln |].
  apply keeps_bind; [apply keeps_startup | intros _].
  apply keeps_bind; [apply keeps_log_Println | intros _].
  apply keeps_cron_run, keeps_cycle.
Qed.

(** ** The start-up block *)

Lemma quiet_ret {A} (a : A) : never_delivers (mret a : M A).
Proof. intros env w. reflexivity. Qed.

Lemma quiet_bind {A B} (m : M A) (f : A -> M B) :
  never_delivers m -> (forall a, never_delivers (f a)) -> never_delivers (m ≫= f).
Proof.
  intros Hm Hf env w. specialize (Hm env w).
  unfold mbind, M_bind, bind.
  destruct (m env w) as [[t1 w1] [a | code]]; [| exact Hm].
  specialize (Hf a env w1).
  destruct (f a env w1) as [[t2 w2] r]. unfold trace_of in *. simpl in *.
  rewrite deliveries_app, Hm, Hf. reflexivity.
Qed.

Ltac quiet_step :=
  first
    [ apply quiet_bind; [| intros ?]
    | apply quiet_ret
    | (intros ? ?; reflexivity)
    | progress cbv zeta
    | match goal with
      | |- never_delivers (match ?x with _ => _ end) => destruct x
      end ].

(** X6: The start-up block attempts no delivery, whatever it finds and whatever
    it is answered. *)
Theorem startup_never_delivers config env w :
  deliveries (trace_of (startup config env w)) = [].
Proof.
  revert env w. change (never_delivers (startup config)).
  unfold startup, DoesFileExist, GetChangelogs, SaveVersion.
  repeat quiet_step.
Qed.

(** ** How the process ends *)

Lemma exits_app t1 t2 : exits (t1 ++ t2) = exits t1 ++ exits t2.
Proof. apply omap_app. Qed.

Lemma tidy_ret {A} (a : A) : exits_tidily (mret a : M A).
Proof. intros env w. left. split; [reflexivity | eexists; reflexivity]. Qed.

Lemma tidy_bind {A B} (m : M A) (f : A -> M B) :
  exits_tidily m -> (forall a, exits_tidily (f a)) -> exits_tidily (m ≫= f).
Proof.
  intros Hm Hf env w. specialize (Hm env w).
  unfold mbind, M_bind, bind.
  destruct (m env w) as [[t1 w1] [a | code]]; unfold trace_of, res_of in *; simpl in *.
  - destruct Hm as [[Ht1 _] | (t & line & _ & _ & Hres)]; [| discriminate Hres].
    specialize (Hf a env w1).
    destruct (f a env w1) as [[t2 w2] r]. unfold trace_of, res_of in *; simpl in *.
    destruct Hf as [[Ht2 Hr] | (t & line & Ht2 & Ht & Hr)].
    + left. split; [rewrite exits_app, Ht1, Ht2; reflexivity | exact Hr].
    + right. exists (t1 ++ t), line. rewrite Ht2, app_assoc, exits_app, Ht1, Ht.
      repeat split. exact Hr.
  - destruct Hm as [[_ [a Hres]] | (t & line & Ht1 & Ht & Hres)];
      [discriminate Hres |].
    injection Hres as ->. right. exists t, line. repeat split; assumption.
Qed.

Lemma tidy_log_Fatalln {A} line : exits_tidily (log_Fatalln line : M A).
Proof. intros env w. right. exists [], line. repeat split. Qed.

Ltac tidy_step :=
  first
    [ apply tidy_bind; [| intros ?]
    | apply tidy_ret
    | apply tidy_log_Fatalln
    | (intros ? ?; left; split; [reflexivity | eexists; reflexivity])
    | progress cbv zeta
    | match goal with
      | |- exits_tidily (match ?x with _ => _ end) => destruct x
      end ].

Lemma tidy_for_range {A} (l : list A) (body : A -> M unit) :
  (forall x, exits_tidily (body x)) -> exits_tidily (for_range l body).
Proof.
  intros Hbody. induction l as [| x l IH]; simpl.
  - apply tidy_ret.
  - apply tidy_bind; [apply Hbody | intros _; exact IH].
Qed.

Lemma tidy_cycle config : exits_tidily (cycle config).
Proof.
  unfold cycle, GetChangelogs, GetSavedVerison, SaveVersion, notify.
  repeat tidy_step.
  apply tidy_for_range. intros webhook. unfold TriggerWebhook. repeat tidy_step.
Qed.

Lemma tidy_startup config : exits_tidily (startup config).
Proof.
  unfold startup, DoesFileExist, GetChangelogs, SaveVersion. repeat tidy_step.
Qed.

Lemma tidy_cron_run ticks (job : M unit) :
  exits_tidily job -> exits_tidily (cron_run ticks job).
Proof.
  intros Hjob. induction ticks as [| n IH]; simpl.
  - apply tidy_ret.
  - apply tidy_bind; [exact Hjob | intros _; exact IH].
Qed.

(** X7: The process never ends silently and never with another status: over any
    number of ticks it is either still alive, having emitted no exit, or it
    has exited with status 1, the exit being the last event of the run and a
    log line the event before it. *)
Theorem main_exits_tidily ticks env w :
  (exits (trace_of (main ticks env w)) = [] /\
   exists a, res_of (main ticks env w) = Done a) \/
  (exists t line,
     trace_of (main ticks env w) = t ++ [LogPrintln line; OsExit 1] /\
     exits t = [] /\
     res_of (main ticks env w) = Exited 1).
Proof.
  revert env w. change (exits_tidily (main ticks)).
  unfold main, LoadConfig. apply tidy_bind.
  { intros env w. left. split; [reflexivity | eexists; reflexivity]. }
  intros [err | config]; [apply tidy_log_Fatalln |].
  apply tidy_bind; [apply tidy_startup | intros _].
  apply tidy_bind; [| intros _; apply tidy_cron_run, tidy_cycle].
  intros env w. left. split; [reflexivity | eexists; reflexivity].
Qed.

(** ** When the start-up block seeds *)

Lemma startup_skips config env w :
  Config.App_LoadOnStartup config = false ->
  is_Some (fs w !! "version.yml") ->
  startup config env w = ([OsStat "version.yml" true], w, Done tt).
Proof.
  intros Hflag Hsome. unfold startup, DoesFileExist. rewrite Hflag.
  erewrite bind_done; cycle 1.
  { erewrite bind_done; [| unfold os_Stat; rewrite bool_decide_eq_true_2 by exact Hsome;
                           reflexivity].
    reflexivity. }
  reflexivity.
Qed.

Lemma startup_seeding config env w :
  Config.App_LoadOnStartup config = true \/ fs w !! "version.yml" = None ->
  exists r,
    res_of (GetChangelogs env w) = Done r /\
    startup config env w =
      (stat_prefix config ++ get_event env w :: trace_of (seed_with r env (after_get w)),
       world_of (seed_with r env (after_get w)),
       res_of (seed_with r env (after_get w))).
Proof.
  intros Hseed.
  destruct (GetChangelogs_returns env w) as [r Hr]. exists r. split; [exact Hr |].
  pose proof (GetChangelogs_run env w) as Hrun. rewrite Hr in Hrun.
  unfold startup, stat_prefix.
  destruct (Config.App_LoadOnStartup config) eqn:Hflag.
  - erewrite bind_done; [| reflexivity].
    exact (f_equal (λ out, ([] ++ trace_of out, world_of out, res_of out))
             (bind_done GetChangelogs seed_with env w _ _ _ Hrun)).
  - destruct Hseed as [Hseed | Hnone]; [discriminate Hseed |].
    erewrite bind_done; cycle 1.
    { unfold DoesFileExist.
      erewrite bind_done; [| unfold os_Stat; rewrite Hnone; reflexivity].
      reflexivity. }
    exact (f_equal (λ out, ([OsStat "version.yml" false] ++ trace_of out,
                            world_of out, res_of out))
             (bind_done GetChangelogs seed_with env w _ _ _ Hrun)).
Qed.

Lemma startup_saved config env w changelog rest data :
  Config.App_LoadOnStartup config = true \/ fs w !! "version.yml" = None ->
  res_of (GetChangelogs env w) = Done (inr (changelog :: rest)) ->
  yaml_Marshal (Version.mk (Changelog.Version changelog)) = inr data ->
  write_reply env (n_write w) = WriteOk ->
  startup config env w =
    (stat_prefix config
       ++ [get_event env w; OsWriteFile "version.yml" data 420 WriteOk;
           LogPrintln ("Version of the first item: " +:+ Changelog.Version changelog)],
     after_save data (after_get w), Done tt).
Proof.
  intros Hseed Hget Hm Hw.
  destruct (startup_seeding config env w Hseed) as (r & Hr & ->).
  rewrite Hget in Hr. injection Hr as <-. simpl seed_with.
  rewrite (bind_done _ _ _ _ _ _ _ (SaveVersion_ok env (after_get w) _ _ Hm Hw)).
  reflexivity.
Qed.

(** X8: The start-up block fetches exactly when [load_on_startup] is set or
    [version.yml] is missing; when it does not fetch it changes nothing and
    returns. *)
Theorem startup_fetches_iff config env w :
  (fetches (trace_of (startup config env w)) <> [] <->
   Config.App_LoadOnStartup config = true \/ fs w !! "version.yml" = None) /\
  (fetches (trace_of (startup config env w)) = [] ->
   store_writes (trace_of (startup config env w)) = [] /\
   world_of (startup config env w) = w /\
   res_of (startup config env w) = Done tt).
Proof.
  destruct (Config.App_LoadOnStartup config) eqn:Hflag;
    [| destruct (fs w !! "version.yml") as [old |] eqn:Hfile].
  - destruct (startup_seeding config env w (or_introl Hflag)) as (r & _ & ->).
    unfold trace_of at 1 3. cbn [fst]. unfold fetches. rewrite omap_app. cbn [omap list_omap].
    unfold stat_prefix. rewrite Hflag. simpl.
    split; [split; [auto | discriminate] | discriminate].
  - rewrite (startup_skips config env w Hflag) by (rewrite Hfile; eauto).
    cbn. split; [| auto].
    split; [intros H; contradiction H; reflexivity | intros [H | H]; discriminate H].
  - destruct (startup_seeding config env w (or_intror Hfile)) as (r & _ & ->).
    unfold trace_of at 1 3. cbn [fst]. unfold fetches. rewrite omap_app.
    unfold stat_prefix. rewrite Hflag. simpl.
    split; [split; [auto | discriminate] | discriminate].
Qed.

(** ** An unchanged remote *)

Lemma GetChangelogs_ok env w parsedResponse :
  get_reply env (n_get w) = GetResp StatusOK (inr parsedResponse) ->
  res_of (GetChangelogs env w) = Done (inr (ChangelogResponse.Data parsedResponse)).
Proof.
  intros Hreply. unfold GetChangelogs, mbind, M_bind, bind, http_Get, res_of.
  rewrite Hreply. reflexivity.
Qed.

Lemma remote_stays_at_later env w w' v :
  (n_get w <= n_get w')%nat -> remote_stays_at env w v -> remote_stays_at env w' v.
Proof. intros Hle Hstay k Hk. apply Hstay. lia. Qed.

(** With the store at the version the remote keeps serving, any number of
    ticks is a run of UNCHANGED cycles. *)
Lemma cron_run_unchanged config env ticks :
  forall w savedVersion,
    res_of (GetSavedVerison env w) = Done (inr savedVersion) ->
    remote_stays_at env w (Version.Version savedVersion) ->
    let out := cron_run ticks (cycle config) env w in
    deliveries (trace_of out) = [] /\
    store_writes (trace_of out) = [] /\
    length (fetches (trace_of out)) = ticks /\
    fs (world_of out) = fs w /\
    res_of out = Done tt.
Proof.
  induction ticks as [| n IH]; intros w savedVersion Hload Hstay out; subst out.
  - simpl. repeat split.
  - destruct (Hstay (n_get w) (le_n _)) as (changelog & rest & ra & Hreply & Hv).
    pose proof (GetChangelogs_ok env w _ Hreply) as Hget. simpl in Hget.
    pose proof (cycle_unchanged config env w changelog rest savedVersion Hget Hload Hv)
      as Hcycle.
    simpl cron_run. rewrite (bind_done _ _ _ _ _ _ _ Hcycle).
    destruct (IH (after_get w) savedVersion) as (Hd & Hwr & Hf & Hfs & Hres).
    { rewrite <- Hload. apply GetSavedVerison_fs. reflexivity. }
    { apply (remote_stays_at_later env w); [simpl; lia | exact Hstay]. }
    unfold trace_of, world_of, res_of in *. cbn [fst snd].
    unfold fetches in *. rewrite deliveries_app, store_writes_app, omap_app, length_app.
    rewrite Hd, Hwr, Hf, Hfs, Hres. repeat split.
Qed.

(** X9: With [load_on_startup] unset and a stored record that loads as the
    version the remote keeps serving, the process goes through any number of
    ticks alive, with one fetch per tick, no delivery attempt and no write. *)
Theorem steady_state ticks env w config savedVersion :
  config_yml env = inr config ->
  Config.App_LoadOnStartup config = false ->
  res_of (GetSavedVerison env w) = Done (inr savedVersion) ->
  remote_stays_at env w (Version.Version savedVersion) ->
  deliveries (trace_of (main ticks env w)) = [] /\
  store_writes (trace_of (main ticks env w)) = [] /\
  length (fetches (trace_of (main ticks env w))) = ticks /\
  fs (world_of (main ticks env w)) = fs w /\
  res_of (main ticks env w) = Done tt.
Proof.
  intros Hconfig Hflag Hload Hstay.
  assert (Hfile : is_Some (fs w !! "version.yml")).
  { revert Hload. unfold GetSavedVerison, mbind, M_bind, bind, os_ReadFile, res_of.
    destruct (fs w !! "version.yml"); [eauto | discriminate]. }
  unfold main.
  erewrite bind_done; [| unfold LoadConfig; rewrite Hconfig; reflexivity].
  cbn [trace_of world_of res_of fst snd app].
  rewrite (bind_done _ _ _ _ _ _ _ (startup_skips config env w Hflag Hfile)).
  rewrite (bind_done _ _ _ _ _ _ _ (log_Println_run _ env w)).
  destruct (cron_run_unchanged config env ticks w savedVersion Hload Hstay)
    as (Hd & Hwr & Hf & Hfs & Hres).
  unfold trace_of, world_of, res_of in *. cbn [fst snd app].
  unfold deliveries, store_writes, fetches in *. cbn [omap list_omap delivery_of
    store_write_of fetch_of].
  rewrite Hd, Hwr, Hf, Hfs, Hres. repeat split.
Qed.

(** X10: A new version is announced once: after the cycle that detects and saves
    it, the later ticks, for as long as the remote keeps serving it, add no
    delivery attempt and no write.  The YAML library is taken to read back
    the document it writes for that version. *)
Theorem announced_once ticks config env w changelog rest savedVersion data :
  res_of (GetChangelogs env w) = Done (inr (changelog :: rest)) ->
  res_of (GetSavedVerison env w) = Done (inr savedVersion) ->
  Changelog.Version changelog <> Version.Version savedVersion ->
  yaml_Marshal (Version.mk (Changelog.Version changelog)) = inr data ->
  write_reply env (n_write w) = WriteOk ->
  yaml_roundtrip_at (Changelog.Version changelog) ->
  remote_stays_at env (after_get w) (Changelog.Version changelog) ->
  exists requestBody,
    json_Marshal (payload changelog) = inr requestBody /\
    deliveries (trace_of (cron_run (S ticks) (cycle config) env w)) =
      attempts env (n_post w) requestBody (Config.Notification_Webhooks config) /\
    store_writes (trace_of (cron_run (S ticks) (cycle config) env w))
      = [("version.yml", data, WriteOk)] /\
    res_of (cron_run (S ticks) (cycle config) env w) = Done tt.
Proof.
  intros Hget Hload Hdiff Hm Hw Hround Hstay.
  destruct (json_Marshal_payload changelog) as [body Hbody].
  exists body. split; [exact Hbody |].
  pose proof (cycle_updated config env w changelog rest savedVersion data
                Hget Hload Hdiff Hm Hw) as Hcycle. cbv zeta in Hcycle.
  destruct (notify_run config changelog body env (after_save data (after_get w)) Hbody)
    as (Hnd & Hnw & _ & Hworld & _).
  set (w1 := world_of (notify config changelog env (after_save data (after_get w))))
    in *.
  simpl cron_run. rewrite (bind_done _ _ _ _ _ _ _ Hcycle).
  destruct (cron_run_unchanged config env ticks w1
              (Version.mk (Changelog.Version changelog)))
    as (Hd & Hwr & _ & _ & Hres).
  { apply (GetSavedVerison_load _ _ data); [| apply Hround, Hm].
    rewrite Hworld. apply lookup_insert_eq. }
  { apply (remote_stays_at_later env (after_get w)); [| exact Hstay].
    rewrite Hworld. simpl. lia. }
  unfold trace_of, world_of, res_of in *. cbn [fst snd].
  change (deliveries (([get_event env w; read_event w;
              LogPrintln ("New version is " +:+ Changelog.Version changelog);
              OsWriteFile "version.yml" data 420 WriteOk]
             ++ (notify config changelog env (after_save data (after_get w))).1.1)
             ++ (cron_run ticks (cycle config) env w1).1.1)
            = attempts env (n_post w) body (Config.Notification_Webhooks config) /\
          store_writes (([get_event env w; read_event w;
              LogPrintln ("New version is " +:+ Changelog.Version changelog);
              OsWriteFile "version.yml" data 420 WriteOk]
             ++ (notify config changelog env (after_save data (after_get w))).1.1)
             ++ (cron_run ticks (cycle config) env w1).1.1)
            = [("version.yml", data, WriteOk)] /\
          (cron_run ticks (cycle config) env w1).2 = Done ()).
  rewrite !deliveries_app, !store_writes_app, Hnd, Hnw, Hd, Hwr, Hres.
  rewrite !app_nil_r. repeat split.
Qed.

(** ** Saving *)

(** X11: A save overwrites: after two successful saves the store is what it would
    be after the second alone, and nothing of the first record is left. *)
Theorem save_overwrites env w v1 v2 data1 data2 :
  yaml_Marshal (Version.mk v1) = inr data1 ->
  yaml_Marshal (Version.mk v2) = inr data2 ->
  write_reply env (n_write w) = WriteOk ->
  write_reply env (S (n_write w)) = WriteOk ->
  fs (world_of ((SaveVersion v1 ≫= λ _, SaveVersion v2) env w))
    = <["version.yml" := data2]> (fs w) /\
  store_writes (trace_of ((SaveVersion v1 ≫= λ _, SaveVersion v2) env w))
    = [("version.yml", data1, WriteOk); ("version.yml", data2, WriteOk)] /\
  res_of ((SaveVersion v1 ≫= λ _, SaveVersion v2) env w) = Done None.
Proof.
  intros Hm1 Hm2 Hw1 Hw2.
  rewrite (bind_done _ _ _ _ _ _ _ (SaveVersion_ok env w v1 data1 Hm1 Hw1)).
  pose proof (SaveVersion_ok env (after_save data1 w) v2 data2 Hm2 Hw2) as Hsecond.
  unfold after_save in Hsecond. cbv beta. rewrite Hsecond.
  unfold trace_of, world_of, res_of. simpl.
  split; [apply insert_insert_eq | split; reflexivity].
Qed.

(** X12: When a new version is detected but [version.yml] cannot be opened for
    writing, the cycle exits without a delivery attempt and the store is left
    as it was, so it still loads as the old version. *)
Theorem failed_open_keeps_record config env env' w changelog rest savedVersion data err :
  res_of (GetChangelogs env w) = Done (inr (changelog :: rest)) ->
  res_of (GetSavedVerison env w) = Done (inr savedVersion) ->
  Changelog.Version changelog <> Version.Version savedVersion ->
  yaml_Marshal (Version.mk (Changelog.Version changelog)) = inr data ->
  write_reply env (n_write w) = WriteErr err None ->
  fs (world_of (cycle config env w)) = fs w /\
  deliveries (trace_of (cycle config env w)) = [] /\
  res_of (cycle config env w) = Exited 1 /\
  res_of (GetSavedVerison env' (world_of (cycle config env w)))
    = Done (inr savedVersion).
Proof.
  intros Hget Hload Hdiff Hm Hw.
  pose proof (SaveVersion_run env w (Changelog.Version changelog)) as Hrun.
  pose proof (SaveVersion_run env (after_get w) (Changelog.Version changelog)) as Hrun'.
  rewrite Hm in Hrun, Hrun'. simpl in Hrun'. rewrite Hw in Hrun, Hrun'.
  assert (Hsave : res_of (SaveVersion (Changelog.Version changelog) env w)
                  = Done (Some ("error writing to file: " +:+ err)))
    by (rewrite Hrun; reflexivity).
  destruct (cycle_save_failed config _ _ _ _ _ _ Hget Hload Hdiff Hsave)
    as (Hcycle & _ & _).
  rewrite Hcycle, Hrun'. unfold trace_of, world_of, res_of. cbn [fst snd fs].
  split; [reflexivity |]. split; [reflexivity |]. split; [reflexivity |].
  rewrite <- Hload. apply GetSavedVerison_fs. reflexivity.
Qed.

(** X13: A cycle that finds no [version.yml] does not seed it: it exits right
    after the failed read, with no write and no delivery attempt. *)
Theorem cycle_without_record config env w changelog rest :
  res_of (GetChangelogs env w) = Done (inr (changelog :: rest)) ->
  fs w !! "version.yml" = None ->
  cycle config env w =
    ([get_event env w; OsReadFile "version.yml" None;
      LogPrintln ("Failed to get saved version: error reading the file: "
                  +:+ "open version.yml: no such file or directory");
      OsExit 1],
     after_get w, Exited 1).
Proof.
  intros Hget Hnone.
  assert (Hload : res_of (GetSavedVerison env w)
                  = Done (inl ("error reading the file: "
                               +:+ "open version.yml: no such file or directory"))).
  { unfold GetSavedVerison, mbind, M_bind, bind, os_ReadFile, res_of.
    rewrite Hnone. reflexivity. }
  rewrite (cycle_load_failed config env w changelog rest _ Hget Hload).
  unfold read_event. rewrite Hnone. reflexivity.
Qed.

(** ** Delivering *)


(** [delivery_failed] is the failure condition of [TriggerWebhook]. *)
Lemma delivery_failed_iff webhook requestBody env w :
  delivery_failed (webhook, requestBody, post_reply env (n_post w)) = false <->
  res_of (TriggerWebhook webhook requestBody env w) = Done None.
Proof.
  unfold delivery_failed, TriggerWebhook, mbind, M_bind, bind, http_Post, res_of.
  destruct (post_reply env (n_post w)) as [err | code]; simpl.
  - split; discriminate.
  - case_bool_decide as Hcode; simpl; destruct (Z.eqb_spec code StatusOK);
      split; intros H; try reflexivity; try discriminate H; contradiction.
Qed.

Lemma notify_turn_logs webhook requestBody env w :
  exists logs,
    (TriggerWebhook webhook requestBody ≫= λ e : option error,
       match e with
       | Some err => log_Println ("Failed to trigger webhook: " +:+ err)
       | None => mret ()
       end) env w =
      (HttpPost webhook "application/json" requestBody (post_reply env (n_post w))
         :: logs,
       after_posts 1 w, Done tt) /\
    deliveries logs = [] /\
    length (log_lines logs)
      = (if delivery_failed (webhook, requestBody, post_reply env (n_post w))
         then 1 else 0)%nat.
Proof.
  unfold TriggerWebhook, mbind, M_bind, bind, http_Post, after_posts, log_Println,
    delivery_failed.
  destruct (post_reply env (n_post w)) as [err | code]; simpl.
  - eexists; split; [reflexivity | split; reflexivity].
  - case_bool_decide as Hcode; simpl.
    + eexists; split; [reflexivity | split; [reflexivity |]].
      destruct (Z.eqb_spec code StatusOK); [contradiction | reflexivity].
    + eexists; split; [reflexivity | split; [reflexivity |]].
      destruct (Z.eqb_spec code StatusOK); [reflexivity | contradiction].
Qed.

(** X15: The notification loop logs one line per failed delivery and none for a
    delivery that succeeded. *)
Theorem notify_logs_each_failure config changelog env w :
  length (log_lines (trace_of (notify config changelog env w)))
    = length (List.filter delivery_failed
                (deliveries (trace_of (notify config changelog env w)))).
Proof.
  destruct (json_Marshal_payload changelog) as [body Hbody].
  unfold notify. rewrite Hbody.
  generalize (Config.Notification_Webhooks config). intros webhooks.
  revert w. induction webhooks as [| url rest IH]; intros w.
  - reflexivity.
  - simpl for_range.
    destruct (notify_turn_logs url body env w) as (logs & Hturn & Hd & Hlogs).
    rewrite (bind_done _ _ _ _ _ _ _ Hturn).
    specialize (IH (after_posts 1 w)).
    unfold trace_of in *. cbn [fst].
    change (HttpPost url "application/json" body (post_reply env (n_post w)) :: logs)
      with ([HttpPost url "application/json" body (post_reply env (n_post w))] ++ logs).
    unfold log_lines in *. rewrite !deliveries_app, !omap_app, Hd.
    rewrite !length_app, IH, Hlogs. cbn [app].
    change (deliveries [HttpPost url "application/json" body (post_reply env (n_post w))])
      with [(url, body, post_reply env (n_post w))].
    cbn [app List.filter omap list_omap log_line_of length].
    destruct (delivery_failed (url, body, post_reply env (n_post w))); simpl; lia.
Qed.

(** ** The payload *)

(** X16: The payload is made of the version, the size, the release date and
    whether there are mod changes; two entries that agree on these give the
    same payload and the same request body, whatever else they hold. *)
Theorem payload_depends_only_on changelog changelog' :
  Changelog.Version changelog = Changelog.Version changelog' ->
  Changelog.Size changelog = Changelog.Size changelog' ->
  Changelog.ReleaseAt changelog = Changelog.ReleaseAt changelog' ->
  (Changelog.ChangeMod changelog = [] <-> Changelog.ChangeMod changelog' = []) ->
  payload changelog = payload changelog' /\
  json_Marshal (payload changelog) = json_Marshal (payload changelog').
Proof.
  intros Hv Hs Hr Hmod.
  assert (Hp : payload changelog = payload changelog').
  { unfold payload. rewrite Hv, Hs, Hr.
    destruct (Changelog.ChangeMod changelog) as [| m ms],
             (Changelog.ChangeMod changelog') as [| m' ms']; simpl; try reflexivity.
    - discriminate (proj1 Hmod eq_refl).
    - discriminate (proj2 Hmod eq_refl). }
  split; [exact Hp | rewrite Hp; reflexivity].
Qed.

(** ** A seeded run *)

(** X17: When the start-up block seeds (no record yet, or [load_on_startup] set)
    and the remote keeps serving the version it seeded, the process attempts
    no delivery over any number of ticks, whatever the store held before: a
    version published while the process was down is never announced.  The
    YAML library is taken to read back the document it writes for that
    version. *)
Theorem seeded_run_is_silent ticks env w config v data :
  config_yml env = inr config ->
  Config.App_LoadOnStartup config = true \/ fs w !! "version.yml" = None ->
  remote_stays_at env w v ->
  yaml_Marshal (Version.mk v) = inr data ->
  write_reply env (n_write w) = WriteOk ->
  yaml_roundtrip_at v ->
  deliveries (trace_of (main ticks env w)) = [] /\
  store_writes (trace_of (main ticks env w)) = [("version.yml", data, WriteOk)] /\
  fs (world_of (main ticks env w)) = <["version.yml" := data]> (fs w) /\
  res_of (main ticks env w) = Done tt.
Proof.
  intros Hconfig Hseed Hstay Hm Hw Hround.
  destruct (Hstay (n_get w) (le_n _)) as (changelog & rest & ra & Hreply & <-).
  pose proof (GetChangelogs_ok env w _ Hreply) as Hget. simpl in Hget.
  pose proof (startup_saved config env w changelog rest data Hseed Hget Hm Hw) as Hstart.
  unfold main.
  erewrite bind_done; [| unfold LoadConfig; rewrite Hconfig; reflexivity].
  cbn [trace_of world_of res_of fst snd app].
  rewrite (bind_done _ _ _ _ _ _ _ Hstart).
  rewrite (bind_done _ _ _ _ _ _ _ (log_Println_run _ env _)).
  destruct (cron_run_unchanged config env ticks (after_save data (after_get w))
              (Version.mk (Changelog.Version changelog)))
    as (Hd & Hwr & _ & Hfs & Hres).
  { apply (GetSavedVerison_load _ _ data); [apply lookup_insert_eq | apply Hround, Hm]. }
  { apply (remote_stays_at_later env w); [simpl; lia | exact Hstay]. }
  unfold trace_of, world_of, res_of in *. cbn [fst snd].
  rewrite !deliveries_app, !store_writes_app, Hd, Hwr, Hfs, Hres.
  unfold stat_prefix. destruct (Config.App_LoadOnStartup config); repeat split.
Qed.

(** X18: The start-up block exits exactly when it seeds and the fetch fails, the
    fetched list is empty, or the save fails; otherwise it returns. *)
Theorem startup_exit_iff config env w :
  (res_of (startup config env w) = Done tt \/ res_of (startup config env w) = Exited 1) /\
  (res_of (startup config env w) = Exited 1 <->
   (Config.App_LoadOnStartup config = true \/ fs w !! "version.yml" = None) /\
   ((exists err, res_of (GetChangelogs env w) = Done (inl err)) \/
    res_of (GetChangelogs env w) = Done (inr []) \/
    (exists changelog rest err,
       res_of (GetChangelogs env w) = Done (inr (changelog :: rest)) /\
       res_of (SaveVersion (Changelog.Version changelog) env w) = Done (Some err)))).
Proof.
  destruct (decide (Config.App_LoadOnStartup config = true
                    \/ fs w !! "version.yml" = None)) as [Hseed | Hskip].
  - destruct (startup_seeding config env w Hseed) as (r & Hr & ->).
    unfold res_of at 1 2 3. cbn [snd].
    destruct r as [err | [| changelog rest]]; simpl seed_with.
    + split; [right; reflexivity |]. split; [intros _; split; eauto | reflexivity].
    + split; [right; reflexivity |]. split; [intros _; split; eauto | reflexivity].
    + destruct (SaveVersion_returns env (after_get w) (Changelog.Version changelog))
        as [e He].
      pose proof (SaveVersion_res_after_get env w (Changelog.Version changelog)) as Hsame.
      rewrite He in Hsame.
      rewrite (bind_done _ _ _ _ _ _ _
                 (eq_trans (surjective_pairing _)
                    (f_equal2 pair (surjective_pairing _) He))).
      destruct e as [err |]; unfold res_of in *; cbn [snd log_Fatalln log_Println].
      * split; [right; reflexivity |]. split; [| reflexivity].
        intros _. split; [exact Hseed |]. right. right.
        exists changelog, rest, err. split; [exact Hr | symmetry; exact Hsame].
      * split; [left; reflexivity |]. split; [discriminate |].
        intros [_ [[err Herr] | [Hnil | (c & l & err & Hc & Herr)]]].
        -- rewrite Hr in Herr. discriminate Herr.
        -- rewrite Hr in Hnil. discriminate Hnil.
        -- rewrite Hr in Hc. injection Hc as <- <-.
           rewrite Herr in Hsame. discriminate Hsame.
  - assert (Hflag : Config.App_LoadOnStartup config = false)
      by (destruct (Config.App_LoadOnStartup config); [contradiction Hskip; auto | reflexivity]).
    assert (Hfile : is_Some (fs w !! "version.yml"))
      by (destruct (fs w !! "version.yml"); [eauto | contradiction Hskip; auto]).
    rewrite (startup_skips config env w Hflag Hfile). unfold res_of. simpl.
    split; [left; reflexivity |]. split; [discriminate | intros [H _]; contradiction].
Qed.

(** ** Fetching *)

(** X19: [GetChangelogs] makes one GET to the changelog URL, leaves the file
    system alone, and returns a list exactly when the answer has status 200
    and a body that decodes; the list is then the [data] of the body. *)
Theorem GetChangelogs_contract env w :
  trace_of (GetChangelogs env w)
    = [HttpGet "https://api.panthor.de/v1/changelog" (get_reply env (n_get w))] /\
  fs (world_of (GetChangelogs env w)) = fs w /\
  (forall changelogs,
     res_of (GetChangelogs env w) = Done (inr changelogs) <->
     exists parsedResponse,
       get_reply env (n_get w) = GetResp StatusOK (inr parsedResponse) /\
       ChangelogResponse.Data parsedResponse = changelogs).
Proof.
  unfold GetChangelogs, mbind, M_bind, bind, http_Get, trace_of, world_of, res_of.
  destruct (get_reply env (n_get w)) as [err | code [err | parsed]]; simpl;
    try case_bool_decide; simpl;
    (split; [reflexivity |]); (split; [reflexivity |]);
    intros changelogs; split; try discriminate.
  all: try (intros (parsed' & Hreply & _); congruence).
  - intros [= <-]. exists parsed. split; [| reflexivity].
    f_equal. destruct (decide (code = StatusOK)); [assumption | contradiction].
  - intros (parsed' & [= -> ->] & <-). reflexivity.
Qed.

(** ** Loading and saving, one call at a time *)


(** X21: [SaveVersion] reports success exactly when the record marshals and the
    write is complete; it writes to no file but [version.yml], and when the
    record does not marshal it does not write at all. *)
Theorem SaveVersion_contract env w version :
  (res_of (SaveVersion version env w) = Done None <->
   exists data,
     yaml_Marshal (Version.mk version) = inr data /\
     write_reply env (n_write w) = WriteOk) /\
  (forall name data reply,
     (name, data, reply) ∈ store_writes (trace_of (SaveVersion version env w)) ->
     name = "version.yml" /\ yaml_Marshal (Version.mk version) = inr data /\
     reply = write_reply env (n_write w)) /\
  (forall err,
     yaml_Marshal (Version.mk version) = inl err ->
     SaveVersion version env w
       = ([], w, Done (Some ("error marshaling data to YAML: " +:+ err)))).
Proof.
  pose proof (SaveVersion_run env w version) as Hrun.
  destruct (yaml_Marshal (Version.mk version)) as [merr | data] eqn:Hm; rewrite Hrun;
    unfold trace_of, res_of; simpl.
  - split; [| split].
    + split; [discriminate |]. intros (d & Hd & _). discriminate Hd.
    + intros name d r Hin. inversion Hin.
    + intros err [= <-]. reflexivity.
  - split; [| split].
    + destruct (write_reply env (n_write w)) as [| err k]; split; eauto;
        try discriminate.
      intros (d & _ & Hw). discriminate Hw.
    + intros name d r Hin. apply list_elem_of_singleton in Hin.
      injection Hin as -> -> ->. auto.
    + intros err Herr. discriminate Herr.
Qed.

End Coverage.

(** * Concrete runs of the further properties *)

Section CoverageRuns.
Existing Instance flatYaml.

Lemma remote_at_2052 env w :
  get_reply env = (fun _ => sample_feed "2.0.5.2") -> remote_stays_at env w "2.0.5.2".
Proof.
  intros Hfeed k _. rewrite Hfeed.
  exists (sample_entry "2.0.5.2" []), [sample_entry "2.0.5.0" []], 1716415200.
  split; reflexivity.
Defined.

Lemma main_touches_only_version_yml_witness :
  "config.yml" <> "version.yml" /\
  fs (world_of (main 2 env_B_down world_two_files)) !! "config.yml"
    = fs world_two_files !! "config.yml".
Proof.
  assert (H : "config.yml" <> "version.yml") by discriminate.
  split; [exact H |].
  exact (main_touches_only_version_yml 2 env_B_down world_two_files "config.yml" H).
Defined.

Lemma steady_state_witness :
  config_yml env_B_down = inr sample_config /\
  Config.App_LoadOnStartup sample_config = false /\
  res_of (GetSavedVerison env_B_down world_current) = Done (inr (Version.mk "2.0.5.2")) /\
  remote_stays_at env_B_down world_current "2.0.5.2" /\
  deliveries (trace_of (main 3 env_B_down world_current)) = [] /\
  store_writes (trace_of (main 3 env_B_down world_current)) = [] /\
  length (fetches (trace_of (main 3 env_B_down world_current))) = 3%nat /\
  fs (world_of (main 3 env_B_down world_current)) = fs world_current /\
  res_of (main 3 env_B_down world_current) = Done tt.
Proof.
  assert (H1 : config_yml env_B_down = inr sample_config) by reflexivity.
  assert (H2 : Config.App_LoadOnStartup sample_config = false) by reflexivity.
  assert (H3 : res_of (GetSavedVerison env_B_down world_current)
               = Done (inr (Version.mk "2.0.5.2"))) by reflexivity.
  assert (H4 : remote_stays_at env_B_down world_current "2.0.5.2")
    by (apply remote_at_2052; reflexivity).
  repeat (split; [assumption |]).
  exact (steady_state 3 env_B_down world_current sample_config (Version.mk "2.0.5.2")
           H1 H2 H3 H4).
Defined.

Lemma announced_once_witness :
  res_of (GetChangelogs env_B_down world_old) = Done (inr (entry_new :: entries_rest)) /\
  res_of (GetSavedVerison env_B_down world_old) = Done (inr (Version.mk "2.0.5.1")) /\
  Changelog.Version entry_new <> "2.0.5.1" /\
  yaml_Marshal (Version.mk (Changelog.Version entry_new)) = inr record_new /\
  write_reply env_B_down (n_write world_old) = WriteOk /\
  yaml_roundtrip_at (Changelog.Version entry_new) /\
  remote_stays_at env_B_down (after_get world_old) (Changelog.Version entry_new) /\
  exists requestBody,
    json_Marshal (payload entry_new) = inr requestBody /\
    deliveries (trace_of (cron_run 3 (cycle sample_config) env_B_down world_old)) =
      [("A", requestBody, PostResp 200); ("B", requestBody, PostResp 500);
       ("C", requestBody, PostResp 200)] /\
    store_writes (trace_of (cron_run 3 (cycle sample_config) env_B_down world_old))
      = [("version.yml", record_new, WriteOk)] /\
    res_of (cron_run 3 (cycle sample_config) env_B_down world_old) = Done tt.
Proof.
  assert (H1 : res_of (GetChangelogs env_B_down world_old)
               = Done (inr (entry_new :: entries_rest))) by reflexivity.
  assert (H2 : res_of (GetSavedVerison env_B_down world_old)
               = Done (inr (Version.mk "2.0.5.1"))) by reflexivity.
  assert (H3 : Changelog.Version entry_new <> "2.0.5.1") by discriminate.
  assert (H4 : yaml_Marshal (Version.mk (Changelog.Version entry_new))
               = inr record_new) by reflexivity.
  assert (H5 : write_reply env_B_down (n_write world_old) = WriteOk) by reflexivity.
  assert (H6 : yaml_roundtrip_at (Changelog.Version entry_new))
    by exact flat_roundtrip_2052.
  assert (H7 : remote_stays_at env_B_down (after_get world_old)
                 (Changelog.Version entry_new))
    by (apply remote_at_2052; reflexivity).
  repeat (split; [assumption |]).
  exact (announced_once 2 sample_config env_B_down world_old entry_new entries_rest
           (Version.mk "2.0.5.1") record_new H1 H2 H3 H4 H5 H6 H7).
Defined.

Lemma save_overwrites_witness :
  yaml_Marshal (Version.mk "2.0.5.1") = inr (flat_prefix +:+ "2.0.5.1" +:+ String "010"%char "") /\
  yaml_Marshal (Version.mk "2.0.5.2") = inr record_new /\
  write_reply env_B_down (n_write world_fresh) = WriteOk /\
  write_reply env_B_down (S (n_write world_fresh)) = WriteOk /\
  fs (world_of ((SaveVersion "2.0.5.1" ≫= λ _, SaveVersion "2.0.5.2")
                  env_B_down world_fresh))
    = <["version.yml" := record_new]> (fs world_fresh) /\
  store_writes (trace_of ((SaveVersion "2.0.5.1" ≫= λ _, SaveVersion "2.0.5.2")
                            env_B_down world_fresh))
    = [("version.yml", flat_prefix +:+ "2.0.5.1" +:+ String "010"%char "", WriteOk);
       ("version.yml", record_new, WriteOk)] /\
  res_of ((SaveVersion "2.0.5.1" ≫= λ _, SaveVersion "2.0.5.2") env_B_down world_fresh)
    = Done None.
Proof.
  assert (H1 : yaml_Marshal (Version.mk "2.0.5.1")
               = inr (flat_prefix +:+ "2.0.5.1" +:+ String "010"%char "")) by reflexivity.
  assert (H2 : yaml_Marshal (Version.mk "2.0.5.2") = inr record_new) by reflexivity.
  assert (H3 : write_reply env_B_down (n_write world_fresh) = WriteOk) by reflexivity.
  assert (H4 : write_reply env_B_down (S (n_write world_fresh)) = WriteOk)
    by reflexivity.
  repeat (split; [assumption |]).
  exact (save_overwrites env_B_down world_fresh "2.0.5.1" "2.0.5.2" _ _ H1 H2 H3 H4).
Defined.

Lemma failed_open_keeps_record_witness :
  res_of (GetChangelogs env_read_only world_old) = Done (inr (entry_new :: entries_rest)) /\
  res_of (GetSavedVerison env_read_only world_old) = Done (inr (Version.mk "2.0.5.1")) /\
  Changelog.Version entry_new <> "2.0.5.1" /\
  yaml_Marshal (Version.mk (Changelog.Version entry_new)) = inr record_new /\
  write_reply env_read_only (n_write world_old)
    = WriteErr "open version.yml: permission denied" None /\
  fs (world_of (cycle sample_config env_read_only world_old)) = fs world_old /\
  deliveries (trace_of (cycle sample_config env_read_only world_old)) = [] /\
  res_of (cycle sample_config env_read_only world_old) = Exited 1 /\
  res_of (GetSavedVerison env_B_down
            (world_of (cycle sample_config env_read_only world_old)))
    = Done (inr (Version.mk "2.0.5.1")).
Proof.
  assert (H1 : res_of (GetChangelogs env_read_only world_old)
               = Done (inr (entry_new :: entries_rest))) by reflexivity.
  assert (H2 : res_of (GetSavedVerison env_read_only world_old)
               = Done (inr (Version.mk "2.0.5.1"))) by reflexivity.
  assert (H3 : Changelog.Version entry_new <> "2.0.5.1") by discriminate.
  assert (H4 : yaml_Marshal (Version.mk (Changelog.Version entry_new))
               = inr record_new) by reflexivity.
  assert (H5 : write_reply env_read_only (n_write world_old)
               = WriteErr "open version.yml: permission denied" None) by reflexivity.
  repeat (split; [assumption |]).
  exact (failed_open_keeps_record sample_config env_read_only env_B_down world_old
           entry_new entries_rest (Version.mk "2.0.5.1") record_new _ H1 H2 H3 H4 H5).
Defined.

Lemma cycle_without_record_witness :
  res_of (GetChangelogs env_B_down world_fresh) = Done (inr (entry_new :: entries_rest)) /\
  fs world_fresh !! "version.yml" = None /\
  cycle sample_config env_B_down world_fresh =
    ([get_event env_B_down world_fresh; OsReadFile "version.yml" None;
      LogPrintln ("Failed to get saved version: error reading the file: "
                  +:+ "open version.yml: no such file or directory");
      OsExit 1],
     after_get world_fresh, Exited 1).
Proof.
  assert (H1 : res_of (GetChangelogs env_B_down world_fresh)
               = Done (inr (entry_new :: entries_rest))) by reflexivity.
  assert (H2 : fs world_fresh !! "version.yml" = None) by reflexivity.
  repeat (split; [assumption |]).
  exact (cycle_without_record sample_config env_B_down world_fresh entry_new
           entries_rest H1 H2).
Defined.

Lemma payload_depends_only_on_witness :
  Changelog.Version entry_new = Changelog.Version entry_new_described /\
  Changelog.Size entry_new = Changelog.Size entry_new_described /\
  Changelog.ReleaseAt entry_new = Changelog.ReleaseAt entry_new_described /\
  (Changelog.ChangeMod entry_new = [] <-> Changelog.ChangeMod entry_new_described = []) /\
  payload entry_new = payload entry_new_described /\
  json_Marshal (payload entry_new) = json_Marshal (payload entry_new_described).
Proof.
  assert (H1 : Changelog.Version entry_new = Changelog.Version entry_new_described)
    by reflexivity.
  assert (H2 : Changelog.Size entry_new = Changelog.Size entry_new_described)
    by reflexivity.
  assert (H3 : Changelog.ReleaseAt entry_new = Changelog.ReleaseAt entry_new_described)
    by reflexivity.
  assert (H4 : Changelog.ChangeMod entry_new = []
               <-> Changelog.ChangeMod entry_new_described = [])
    by (split; reflexivity).
  repeat (split; [assumption |]).
  exact (payload_depends_only_on entry_new entry_new_described H1 H2 H3 H4).
Defined.

(** The store holds 2.0.5.1, the remote serves 2.0.5.2, [load_on_startup] is
    set: the record is replaced at start-up and 2.0.5.2 is never announced. *)
Lemma seeded_run_is_silent_witness :
  config_yml env_refresh = inr config_refresh /\
  (Config.App_LoadOnStartup config_refresh = true \/ fs world_old !! "version.yml" = None) /\
  remote_stays_at env_refresh world_old "2.0.5.2" /\
  yaml_Marshal (Version.mk "2.0.5.2") = inr record_new /\
  write_reply env_refresh (n_write world_old) = WriteOk /\
  yaml_roundtrip_at "2.0.5.2" /\
  deliveries (trace_of (main 3 env_refresh world_old)) = [] /\
  store_writes (trace_of (main 3 env_refresh world_old))
    = [("version.yml", record_new, WriteOk)] /\
  fs (world_of (main 3 env_refresh world_old))
    = <["version.yml" := record_new]> (fs world_old) /\
  res_of (main 3 env_refresh world_old) = Done tt.
Proof.
  assert (H1 : config_yml env_refresh = inr config_refresh) by reflexivity.
  assert (H2 : Config.App_LoadOnStartup config_refresh = true
               \/ fs world_old !! "version.yml" = None) by (left; reflexivity).
  assert (H3 : remote_stays_at env_refresh world_old "2.0.5.2")
    by (apply remote_at_2052; reflexivity).
  assert (H4 : yaml_Marshal (Version.mk "2.0.5.2") = inr record_new) by reflexivity.
  assert (H5 : write_reply env_refresh (n_write world_old) = WriteOk) by reflexivity.
  assert (H6 : yaml_roundtrip_at "2.0.5.2") by exact flat_roundtrip_2052.
  repeat (split; [assumption |]).
  exact (seeded_run_is_silent 3 env_refresh world_old config_refresh "2.0.5.2"
           record_new H1 H2 H3 H4 H5 H6).
Defined.

End CoverageRuns.
